(** * ArkType docs site, editor extension manifest and publish workflow

    The repository excerpt holds three artifacts:
    - [.github/workflows/publish.yml], the GitHub Actions workflow that
      builds the docs and publishes the packages;
    - [ark/extension/package.json], the manifest of the ArkDark editor
      extension (grammar injection, ErrorLens rewrite rules, scripts);
    - [ark/docs/app/(home)/layout.tsx], the home layout component of the docs
      site, followed by the MDX text of the configuration guide.

    Each artifact is transcribed as data, next to the small piece of host
    semantics (job scheduling, script chaining, regular-expression matching,
    object spread) that is needed to read it. *)

From Stdlib Require Import Ascii String List Bool Arith NArith ZArith Lia.
From stdpp Require Import gmap strings list fin_maps.

Set Warnings "-register-all".

Open Scope string_scope.
Open Scope list_scope.

(** ** Shared string helpers *)

(** The double-quote character, as a one-character string. *)
Definition dq : string := String "034"%char EmptyString.

(** The line-feed character, as a one-character string. *)
Definition lf : string := String "010"%char EmptyString.

(** The tab character, as a one-character string. *)
Definition tab : string := String "009"%char EmptyString.

(** Membership in a list of strings, by [String.eqb]. *)
Definition mem (s : string) (l : list string) : bool :=
  existsb (String.eqb s) l.

(** ** The publish workflow: [.github/workflows/publish.yml] *)

Module Workflow.

(** A YAML scalar of the workflow: plain text, or one of the two expression
    forms the file uses, [${{ secrets.NAME }}] and
    [${{ steps.ID.outputs.NAME }}]. *)
Inductive scalar :=
  | Lit (text : string)
  | Secret (name : string)
  | StepOutput (step_id output : string).

(** The filters of one entry of [on:]. [None] is an absent key. *)
Record filters := {
  branches : option (list string);
  tags : option (list string)
}.

Definition no_filters : filters := {| branches := None; tags := None |}.

Inductive permissions :=
  | WriteAll
  | ReadAll
  | Scoped (entries : list (string * string)).

Record step := {
  step_name : string;
  step_id_ : option string;
  uses : option string;
  run : option string;
  with_ : list (string * scalar);
  env : list (string * scalar)
}.

Record environment := {
  environment_name : string;
  environment_url : scalar
}.

Record job := {
  job_id : string;
  needs : list string;
  runs_on : string;
  timeout_minutes : option nat;
  job_environment : option environment;
  job_permissions : option permissions;
  steps : list step
}.

Record workflow := {
  name : string;
  on : list (string * filters);
  workflow_permissions : option permissions;
  jobs : list job
}.

Definition checkout_repo : step := {|
  step_name := "Checkout repo";
  step_id_ := None;
  uses := Some "actions/checkout@v4";
  run := None;
  with_ := [("fetch-depth", Lit "0")];
  env := []
|}.

Definition setup_repo : step := {|
  step_name := "Setup repo";
  step_id_ := None;
  uses := Some "./.github/actions/setup";
  run := None;
  with_ := [];
  env := []
|}.

Definition build_docs : step := {|
  step_name := "Build docs";
  step_id_ := None;
  uses := None;
  run := Some "pnpm buildDocs";
  with_ := [];
  env := [
    ("NEXT_PUBLIC_POSTHOG_KEY",
       Lit "phc_vKr7tmA1TyRlKm9zm5TWVmrTWAybJ2fCk66FtZG49Om");
    ("NEXT_PUBLIC_POSTHOG_HOST", Lit "https://us.i.posthog.com");
    ("ORAMA_PRIVATE_API_KEY", Secret "ORAMA_PRIVATE_API_KEY")
  ]
|}.

Definition upload_artifact : step := {|
  step_name := "Upload artifact";
  step_id_ := None;
  uses := Some "actions/upload-pages-artifact@v3";
  run := None;
  with_ := [("path", Lit "./ark/docs/out")];
  env := []
|}.

Definition deploy_to_pages : step := {|
  step_name := "Deploy to GitHub Pages";
  step_id_ := Some "deployment";
  uses := Some "actions/deploy-pages@v4";
  run := None;
  with_ := [];
  env := []
|}.

Definition create_and_publish : step := {|
  step_name := "Create and publish versions";
  step_id_ := None;
  uses := None;
  run := Some "pnpm ci:publish";
  with_ := [];
  env := [
    ("GITHUB_TOKEN", Secret "GITHUB_TOKEN");
    ("NPM_TOKEN", Secret "NPM_TOKEN");
    ("NODE_AUTH_TOKEN", Secret "NPM_TOKEN")
  ]
|}.

Definition update_gh_pages : job := {|
  job_id := "update-gh-pages";
  needs := [];
  runs_on := "ubuntu-latest";
  timeout_minutes := Some 20;
  job_environment := None;
  job_permissions := None;
  steps := [checkout_repo; setup_repo; build_docs; upload_artifact]
|}.

Definition deploy : job := {|
  job_id := "deploy";
  needs := ["update-gh-pages"];
  runs_on := "ubuntu-latest";
  timeout_minutes := None;
  job_environment := Some {|
    environment_name := "github-pages";
    environment_url := StepOutput "deployment" "page_url"
  |};
  job_permissions := None;
  steps := [deploy_to_pages]
|}.

Definition release : job := {|
  job_id := "release";
  needs := [];
  runs_on := "ubuntu-latest";
  timeout_minutes := Some 20;
  job_environment := None;
  job_permissions := None;
  steps := [checkout_repo; setup_repo; create_and_publish]
|}.

Definition publish : workflow := {|
  name := "publish";
  on := [
    ("push", {| branches := Some ["main"]; tags := None |});
    ("workflow_dispatch", no_filters)
  ];
  workflow_permissions := Some WriteAll;
  jobs := [update_gh_pages; deploy; release]
|}.

(** *** Triggers *)

Inductive git_ref :=
  | Branch (b : string)
  | Tag (t : string).

(** An event delivered to the repository: its name and the ref it is about. *)
Record event := {
  event_name : string;
  event_ref : git_ref
}.

(** A filter pattern that holds none of the glob characters of the workflow
    syntax matches exactly the ref of the same name. *)
Definition glob_chars : list ascii :=
  ["*"; "?"; "+"; "["; "]"; "!"]%char.

Definition is_literal (pattern : string) : bool :=
  forallb (fun c => negb (existsb (Ascii.eqb c) glob_chars))
          (list_ascii_of_string pattern).

Definition pattern_matches (pattern ref_name : string) : bool :=
  String.eqb pattern ref_name.

Definition any_matches (patterns : list string) (ref_name : string) : bool :=
  existsb (fun p => pattern_matches p ref_name) patterns.

(** The ref filter of a [push] entry. With neither key every push passes;
    with [branches] alone no tag push passes, and the other way round. *)
Definition ref_passes (f : filters) (r : git_ref) : bool :=
  match branches f, tags f, r with
  | None, None, _ => true
  | Some bs, _, Branch b => any_matches bs b
  | None, Some _, Branch _ => false
  | _, Some ts, Tag t => any_matches ts t
  | Some _, None, Tag _ => false
  end.

(** Only [push] carries ref filters here; any other listed event fires on
    its name alone. *)
Definition entry_fires (entry : string * filters) (e : event) : bool :=
  String.eqb (fst entry) (event_name e) &&
  (if String.eqb (fst entry) "push" then ref_passes (snd entry) (event_ref e)
   else true).

Definition triggered_by (w : workflow) (e : event) : bool :=
  existsb (fun entry => entry_fires entry e) (on w).

(** *** Secrets and environment variables *)

Definition scalar_secrets (v : scalar) : list string :=
  match v with
  | Secret n => [n]
  | _ => []
  end.

Definition step_scalars (s : step) : list scalar :=
  map snd (with_ s) ++ map snd (env s).

Definition job_scalars (j : job) : list scalar :=
  match job_environment j with
  | Some e => [environment_url e]
  | None => []
  end ++ flat_map step_scalars (steps j).

(** Every secret name read anywhere in the workflow, in file order. *)
Definition secrets_referenced (w : workflow) : list string :=
  flat_map scalar_secrets (flat_map job_scalars (jobs w)).

(** Every [env:] binding of every step, in file order. *)
Definition env_bindings (w : workflow) : list (string * scalar) :=
  flat_map (fun j => flat_map env (steps j)) (jobs w).

Definition env_vars_set (w : workflow) : list string :=
  map fst (env_bindings w).

Definition is_secret (v : scalar) : bool :=
  match v with
  | Secret _ => true
  | _ => false
  end.

Definition secret_bound_vars (w : workflow) : list string :=
  map fst (List.filter (fun b => is_secret (snd b)) (env_bindings w)).

Definition literal_bindings (w : workflow) : list (string * scalar) :=
  List.filter (fun b => negb (is_secret (snd b))) (env_bindings w).

Definition env_lookup (w : workflow) (v : string) : option scalar :=
  option_map snd (find (fun b => String.eqb (fst b) v) (env_bindings w)).

(** The four names the interface section lists. *)
Definition required_names : list string :=
  ["ORAMA_PRIVATE_API_KEY"; "GITHUB_TOKEN"; "NPM_TOKEN"; "NODE_AUTH_TOKEN"].

(** *** Job ordering *)

Definition find_job (w : workflow) (id : string) : option job :=
  find (fun j => String.eqb (job_id j) id) (jobs w).

(** The events of the ordering model: a job is started, a job finishes
    successfully. A job that fails, is cancelled or runs past its
    [timeout-minutes] is not an event here: the model speaks of the order
    in which jobs may start, not of how a run ends. *)
Inductive sched_event :=
  | Start (id : string)
  | Finish (id : string).

(** The scheduler's view of a run: the jobs that have been started and the
    jobs that have finished successfully, latest first. *)
Record sched := {
  started : list string;
  completed : list string
}.

Definition initial : sched := {| started := []; completed := [] |}.

Definition running (s : sched) (id : string) : bool :=
  mem id (started s) && negb (mem id (completed s)).

(** A job may start once, and only when every job it [needs] has finished. *)
Definition ready (s : sched) (j : job) : bool :=
  negb (mem (job_id j) (started s)) &&
  forallb (fun n => mem n (completed s)) (needs j).

Definition sched_step (w : workflow) (s : sched) (e : sched_event)
  : option sched :=
  match e with
  | Start id =>
      match find_job w id with
      | Some j =>
          if ready s j
          then Some {| started := id :: started s; completed := completed s |}
          else None
      | None => None
      end
  | Finish id =>
      if running s id
      then Some {| started := started s; completed := id :: completed s |}
      else None
  end.

Fixpoint sched_run (w : workflow) (s : sched) (trace : list sched_event)
  : option sched :=
  match trace with
  | [] => Some s
  | e :: rest =>
      match sched_step w s e with
      | Some s' => sched_run w s' rest
      | None => None
      end
  end.

(** Two traces: [release] started while [update-gh-pages] is running, and
    [release] started before [deploy]. *)
Definition pages_running : list sched_event :=
  [Start "update-gh-pages"; Start "release"].

Definition deploy_running : list sched_event :=
  [Start "update-gh-pages"; Finish "update-gh-pages";
   Start "release"; Start "deploy"].

(** *** Permissions *)

(** A job-level [permissions:] block replaces the workflow-level one. *)
Definition effective_permissions (w : workflow) (j : job)
  : option permissions :=
  match job_permissions j with
  | Some p => Some p
  | None => workflow_permissions w
  end.

End Workflow.

(** ** The extension manifest: [ark/extension/package.json] *)

Module Manifest.

(** A JSON document. Object members keep the order of the file. *)
Inductive json :=
  | JNull
  | JBool (b : bool)
  | JNum (n : Z)
  | JStr (s : string)
  | JArr (items : list json)
  | JObj (members : list (string * json)).

Definition arkdark : json :=
  JObj [
    ("name", JStr "arkdark");
    ("displayName", JStr "ArkType");
    ("description",
       JStr "Syntax highlighting and inline errors for ArkType⛵");
    ("version", JStr "6.1.0");
    ("publisher", JStr "arktypeio");
    ("type", JStr "module");
    ("license", JStr "MIT");
    ("scripts", JObj [
      ("publishExtension",
         JStr "pnpm packageExtension && pnpm publishVsce && pnpm publishOvsx");
      ("packageExtension", JStr "vsce package --out arkdark.vsix");
      ("publishVsce", JStr "vsce publish -i arkdark.vsix");
      ("publishOvsx", JStr "ovsx publish -i arkdark.vsix")
    ]);
    ("devDependencies", JObj [
      ("@vscode/vsce", JStr "3.3.2");
      ("ovsx", JStr "0.10.1")
    ]);
    ("repository", JObj [
      ("type", JStr "git");
      ("url", JStr "https://github.com/arktypeio/arktype")
    ]);
    ("engines", JObj [("vscode", JStr "^1.0.0")]);
    ("categories", JArr [JStr "Programming Languages"]);
    ("icon", JStr "icon.png");
    ("exports", JObj [("./*.json", JStr "./*.json")]);
    ("extensionDependencies", JArr [JStr "usernamehw.errorlens"]);
    ("contributes", JObj [
      ("grammars", JArr [
        JObj [
          ("injectTo", JArr [
            JStr "source.ts";
            JStr "source.tsx";
            JStr "source.js";
            JStr "source.jsx";
            JStr "source.mdx";
            JStr "source.svelte";
            JStr "source.vue";
            JStr "source.astro";
            JStr "text.html.markdown"
          ]);
          ("scopeName", JStr "source.arktype.injection.ts");
          ("path", JStr "injected.tmLanguage.json")
        ]
      ]);
      ("configurationDefaults", JObj [
        ("editor.quickSuggestions", JObj [("strings", JStr "on")]);
        ("errorLens.followCursor", JStr "closestProblem");
        ("errorLens.delay", JNum 0);
        ("errorLens.editorHoverPartsEnabled",
           JObj [("buttonsEnabled", JBool false)]);
        ("errorLens.replace", JArr [
          JObj [
            ("matcher", JStr ".*'ErrorType<(.*)>'.*$");
            ("message", JStr "$1")
          ];
          JObj [
            ("matcher",
               JStr (".*'" +:+ dq +:+ "(.*\u200A)" +:+ dq +:+ "'\.$"));
            ("message", JStr "$1")
          ];
          JObj [
            ("matcher",
               JStr ("^(?:Type|Argument of type) '" +:+ dq +:+ "(.*)" +:+ dq
                     +:+ "' is not assignable to (?:parameter of )?type '("
                     +:+ dq +:+ "\1.*" +:+ dq +:+ ")'\."));
            ("message", JStr "$2")
          ];
          JObj [
            ("matcher", JStr ("[^]*" +:+ lf +:+ "([^" +:+ lf +:+ "]*)$"));
            ("message", JStr "$1")
          ]
        ])
      ])
    ])
  ].

(** *** Reading the document *)

Definition assoc {A : Type} (k : string) (l : list (string * A)) : option A :=
  option_map snd (List.find (fun kv => String.eqb (fst kv) k) l).

Definition field (k : string) (j : json) : option json :=
  match j with
  | JObj members => assoc k members
  | _ => None
  end.

Fixpoint at_path (path : list string) (j : json) : option json :=
  match path with
  | [] => Some j
  | k :: rest =>
      match field k j with
      | Some j' => at_path rest j'
      | None => None
      end
  end.

Definition as_string (j : json) : option string :=
  match j with
  | JStr s => Some s
  | _ => None
  end.

Definition as_array (j : json) : option (list json) :=
  match j with
  | JArr items => Some items
  | _ => None
  end.

(** All items decoded, or nothing if one of them does not decode. *)
Fixpoint all_some {A : Type} (l : list (option A)) : option (list A) :=
  match l with
  | [] => Some []
  | Some x :: rest => option_map (cons x) (all_some rest)
  | None :: _ => None
  end.

Definition as_list {A : Type} (dec : json -> option A) (j : json)
  : option (list A) :=
  match as_array j with
  | Some items => all_some (map dec items)
  | None => None
  end.

Definition string_field (k : string) (j : json) : option string :=
  match field k j with
  | Some v => as_string v
  | None => None
  end.

(** *** Grammar contributions *)

Record grammar := {
  injectTo : list string;
  scopeName : string;
  path : string
}.

Definition as_grammar (j : json) : option grammar :=
  match field "injectTo" j, string_field "scopeName" j, string_field "path" j
  with
  | Some targets, Some sn, Some p =>
      option_map (fun ts => {| injectTo := ts; scopeName := sn; path := p |})
                 (as_list as_string targets)
  | _, _, _ => None
  end.

Definition grammars (m : json) : option (list grammar) :=
  match at_path ["contributes"; "grammars"] m with
  | Some g => as_list as_grammar g
  | None => None
  end.

Definition extensionDependencies (m : json) : option (list string) :=
  match field "extensionDependencies" m with
  | Some d => as_list as_string d
  | None => None
  end.

(** *** ErrorLens rewrite rules *)

Record replace_rule := {
  matcher : string;
  message : string
}.

Definition as_replace_rule (j : json) : option replace_rule :=
  match string_field "matcher" j, string_field "message" j with
  | Some m, Some msg => Some {| matcher := m; message := msg |}
  | _, _ => None
  end.

Definition errorLens_replace (m : json) : option (list replace_rule) :=
  match at_path ["contributes"; "configurationDefaults"; "errorLens.replace"] m
  with
  | Some r => as_list as_replace_rule r
  | None => None
  end.

(** *** Scripts *)

Definition scripts (m : json) : list (string * string) :=
  match field "scripts" m with
  | Some (JObj members) =>
      flat_map (fun kv => match snd kv with
                          | JStr s => [(fst kv, s)]
                          | _ => []
                          end) members
  | _ => []
  end.

(** Words of a command line, split at spaces. *)
Fixpoint words_from (cur : string) (s : string) : list string :=
  match s with
  | EmptyString => if String.eqb cur "" then [] else [cur]
  | String c rest =>
      if Ascii.eqb c " "
      then (if String.eqb cur "" then [] else [cur]) ++ words_from "" rest
      else words_from (cur +:+ String c EmptyString) rest
  end.

Definition words (s : string) : list string := words_from "" s.

(** The simple commands of an [a && b && c] list, in order. *)
Fixpoint and_list_from (cur : list string) (ws : list string)
  : list (list string) :=
  match ws with
  | [] => [cur]
  | w :: rest =>
      if String.eqb w "&&"
      then cur :: and_list_from [] rest
      else and_list_from (cur ++ [w]) rest
  end.

Definition and_list (line : string) : list (list string) :=
  and_list_from [] (words line).

Definition command := list string.

(** What running a command line did: the tool invocations made, in order,
    and whether the line as a whole succeeded. *)
Definition outcome : Type := list command * bool.

Section Run.

(** The table of scripts, and which tool invocations succeed. *)
Variable table : list (string * string).
Variable succeeds : command -> bool.

(** [pnpm <name>] with [name] in the table runs that script; anything
    else is a tool invocation. An and-list runs left to right and stops
    at the first failure. [None] is fuel exhausted by nested scripts. *)
Fixpoint run_line (fuel : nat) (line : string) : option outcome :=
  match fuel with
  | O => None
  | S fuel' =>
      (fix go (cmds : list command) : option outcome :=
         match cmds with
         | [] => Some ([], true)
         | c :: rest =>
             let first :=
               match c with
               | [tool; script] =>
                   if String.eqb tool "pnpm" then
                     match assoc script table with
                     | Some body => run_line fuel' body
                     | None => Some ([c], succeeds c)
                     end
                   else Some ([c], succeeds c)
               | _ => Some ([c], succeeds c)
               end in
             match first with
             | None => None
             | Some (t, false) => Some (t, false)
             | Some (t, true) =>
                 match go rest with
                 | Some (t', ok) => Some (t ++ t', ok)
                 | None => None
                 end
             end
         end) (and_list line)
  end.

Definition run_script (fuel : nat) (script : string) : option outcome :=
  match assoc script table with
  | Some body => run_line fuel body
  | None => None
  end.

End Run.

(** The argument that follows a flag on a command line. *)
Fixpoint flag_value (flag : string) (c : command) : option string :=
  match c with
  | f :: rest =>
      if String.eqb f flag
      then match rest with
           | v :: _ => Some v
           | [] => None
           end
      else flag_value flag rest
  | [] => None
  end.

End Manifest.

(** ** ErrorLens rewrite rules: matching and substitution

    The [errorLens.replace] defaults of the manifest are read by the
    ErrorLens extension: each [matcher] is compiled as a JavaScript regular
    expression, the first match in the message is looked for, and the
    [message] template has its [$n] placeholders filled from the capture
    groups. A message is a sequence of code units. *)

Module ErrorLens.

Definition code_unit (c : ascii) : N := N_of_ascii c.

Definition code_units (s : string) : list N :=
  map code_unit (list_ascii_of_string s).

Definition LF : N := 10%N.

(** The part of the pattern syntax the model covers. Groups carry their
    number, counted by opening parenthesis from 1. *)
Inductive regex :=
  | Empty
  | Char (c : N)
  | Class (negated : bool) (members : list N)
  | Dot
  | Seq (r1 r2 : regex)
  | Star (r : regex)
  | Group (index : nat) (r : regex)
  | EndAnchor.

(** *** Reading a pattern *)

(** The members of a character class, up to the closing bracket. Ranges
    and escapes inside a class are outside the covered syntax. *)
Fixpoint class_members (inp : list ascii) : option (list N * list ascii) :=
  match inp with
  | [] => None
  | c :: rest =>
      if Ascii.eqb c "]" then Some ([], rest)
      else if Ascii.eqb c "\" || Ascii.eqb c "-" then None
      else match class_members rest with
           | Some (ms, rest') => Some (code_unit c :: ms, rest')
           | None => None
           end
  end.

(** A greedy star after an atom; a lazy star is outside the covered syntax. *)
Definition postfix (atom : regex) (inp : list ascii) : option (regex * list ascii) :=
  match inp with
  | c :: rest =>
      if Ascii.eqb c "*" then
        match rest with
        | c' :: _ => if Ascii.eqb c' "?" then None else Some (Star atom, rest)
        | [] => Some (Star atom, rest)
        end
      else if Ascii.eqb c "?" || Ascii.eqb c "+" || Ascii.eqb c "{" then None
      else Some (atom, inp)
  | [] => Some (atom, inp)
  end.

Definition parse_state : Type := regex * nat * list ascii.

Fixpoint parse_seq (fuel : nat) (next : nat) (inp : list ascii)
  : option parse_state :=
  match fuel with
  | O => None
  | S fuel' =>
      match inp with
      | [] => Some (Empty, next, inp)
      | c :: _ =>
          if Ascii.eqb c ")" then Some (Empty, next, inp)
          else
            match parse_term fuel' next inp with
            | Some (t, next', rest) =>
                match parse_seq fuel' next' rest with
                | Some (r, next'', rest') => Some (Seq t r, next'', rest')
                | None => None
                end
            | None => None
            end
      end
  end
with parse_term (fuel : nat) (next : nat) (inp : list ascii)
  : option parse_state :=
  match fuel with
  | O => None
  | S fuel' =>
      let atom : option parse_state :=
        match inp with
        | [] => None
        | c :: rest =>
            if Ascii.eqb c "(" then
              match rest with
              | q :: _ =>
                  if Ascii.eqb q "?" then None
                  else
                    match parse_seq fuel' (S next) rest with
                    | Some (r, next', close :: rest') =>
                        if Ascii.eqb close ")"
                        then Some (Group next r, next', rest')
                        else None
                    | _ => None
                    end
              | [] => None
              end
            else if Ascii.eqb c "[" then
              match rest with
              | n :: rest' =>
                  if Ascii.eqb n "^" then
                    match class_members rest' with
                    | Some (ms, rest'') => Some (Class true ms, next, rest'')
                    | None => None
                    end
                  else
                    match class_members rest with
                    | Some (ms, rest'') => Some (Class false ms, next, rest'')
                    | None => None
                    end
              | [] => None
              end
            else if Ascii.eqb c "." then Some (Dot, next, rest)
            else if Ascii.eqb c "$" then Some (EndAnchor, next, rest)
            else if Ascii.eqb c "\" || Ascii.eqb c "|" || Ascii.eqb c "^"
                    || Ascii.eqb c "*" || Ascii.eqb c "?" || Ascii.eqb c "+"
                    || Ascii.eqb c "{" then None
            else Some (Char (code_unit c), next, rest)
        end in
      match atom with
      | Some (a, next', rest) =>
          match postfix a rest with
          | Some (t, rest') => Some (t, next', rest')
          | None => None
          end
      | None => None
      end
  end.

(** A pattern of the covered syntax, or [None]. *)
Definition parse (pattern : string) : option regex :=
  let chars := list_ascii_of_string pattern in
  match parse_seq (2 * length chars + 2) 1 chars with
  | Some (r, _, []) => Some r
  | _ => None
  end.

(** The fourth matcher of the manifest as read by [parse]: any code
    units, a line feed, group 1 holding code units other than line feed,
    and the end of the input. *)
Definition last_line_pattern : regex :=
  Seq (Star (Class true []))
    (Seq (Char LF)
       (Seq (Group 1 (Seq (Star (Class true [LF])) Empty))
          (Seq EndAnchor Empty))).

(** *** Matching *)

Definition result : Type := list N * gmap nat (list N).

Definition cont : Type := list N -> gmap nat (list N) -> option result.

(** What was read between two positions of the same input. *)
Definition consumed (before after : list N) : list N :=
  take (length before - length after) before.

(** Line terminators, which [.] does not match. *)
Definition line_terminators : list N := [10; 13; 8232; 8233]%N.

(** Greedy iteration: one more round of [body] that reads at least one code
    unit, else the rest of the pattern. [n] bounds the rounds by the length
    of the input. *)
Fixpoint star_loop
    (body : list N -> gmap nat (list N) -> cont -> option result)
    (n : nat) (inp : list N) (c : gmap nat (list N)) (k : cont)
  : option result :=
  match n with
  | O => k inp c
  | S n' =>
      match body inp c (fun inp' c' =>
                          if Nat.ltb (length inp') (length inp)
                          then star_loop body n' inp' c' k
                          else None)
      with
      | Some r => Some r
      | None => k inp c
      end
  end.

Definition one (p : N -> bool) (inp : list N) (c : gmap nat (list N))
    (k : cont) : option result :=
  match inp with
  | x :: rest => if p x then k rest c else None
  | [] => None
  end.

Definition in_class (negated : bool) (members : list N) (x : N) : bool :=
  xorb negated (existsb (N.eqb x) members).

(** Backtracking matcher in continuation-passing style: [k] is the rest of
    the pattern. *)
Fixpoint matches (r : regex) (inp : list N) (c : gmap nat (list N))
    (k : cont) : option result :=
  match r with
  | Empty => k inp c
  | Char x => one (N.eqb x) inp c k
  | Class negated members => one (in_class negated members) inp c k
  | Dot => one (in_class true line_terminators) inp c k
  | Seq r1 r2 => matches r1 inp c (fun inp' c' => matches r2 inp' c' k)
  | Star r' => star_loop (matches r') (length inp) inp c k
  | Group i r' =>
      matches r' inp c (fun inp' c' => k inp' (<[i := consumed inp inp']> c'))
  | EndAnchor =>
      match inp with
      | [] => k inp c
      | _ :: _ => None
      end
  end.

Definition accept : cont := fun rest c => Some (rest, c).

(** The first match, trying each start position from the left. Group 0 is
    the whole match. *)
Fixpoint exec (r : regex) (inp : list N) : option (gmap nat (list N)) :=
  match matches r inp ∅ accept with
  | Some (rest, c) => Some (<[0 := consumed inp rest]> c)
  | None =>
      match inp with
      | [] => None
      | _ :: inp' => exec r inp'
      end
  end.

(** *** Filling the template *)

Definition digit_of (c : ascii) : option nat :=
  let n := nat_of_ascii c in
  if Nat.leb 48 n && Nat.leb n 57 then Some (n - 48) else None.

(** [$n] becomes group [n] when the match has one; other text is kept. *)
Fixpoint substitute (template : list ascii) (groups : gmap nat (list N))
  : list N :=
  match template with
  | [] => []
  | c :: rest =>
      let keep := code_unit c :: substitute rest groups in
      if Ascii.eqb c "$" then
        match rest with
        | d :: rest' =>
            match digit_of d with
            | Some i =>
                match groups !! i with
                | Some g => g ++ substitute rest' groups
                | None => keep
                end
            | None => keep
            end
        | [] => keep
        end
      else keep
  end.

(** One rewrite rule applied to a message: the rewritten text, or [None]
    when the matcher does not match (or is outside the covered syntax). *)
Definition apply_rule (rule : Manifest.replace_rule) (msg : list N)
  : option (list N) :=
  match parse (Manifest.matcher rule) with
  | Some re =>
      match exec re msg with
      | Some groups =>
          Some (substitute (list_ascii_of_string (Manifest.message rule)) groups)
      | None => None
      end
  | None => None
  end.

(** *** Lines of a message *)

Fixpoint lines_from (cur : list N) (msg : list N) : list (list N) :=
  match msg with
  | [] => [cur]
  | x :: rest =>
      if N.eqb x LF then cur :: lines_from [] rest
      else lines_from (cur ++ [x]) rest
  end.

(** The message split at line feeds. *)
Definition lines (msg : list N) : list (list N) := lines_from [] msg.

Definition last_line (msg : list N) : list N := List.last (lines msg) [].

End ErrorLens.

(** ** The configuration guide: MDX text after the layout component *)

Module Docs.

(** The guide, line by line: the text that follows the component in
    [ark/docs/app/(home)/layout.tsx], from its front matter (line 21) to
    its last line (line 635). *)
Definition guide : list string := [
  "---";
  "title: Configuration";
  "---";
  "";
  "A great out-of-the-box experience is a core goal of ArkType, including safe defaults and helpful messages for complex errors.";
  "";
  "However, it's equally important that when you need different behavior, you can easily configure it with the right granularity.";
  "";
  "### Levels";
  "";
  "<table>";
  "  <thead>";
  "    <tr>";
  "      <th>Level</th>";
  "      <th>Applies To</th>";
  "      <th>Example</th>";
  "    </tr>";
  "  </thead>";
  "  <tbody>";
  "    <tr>";
  "      <td>**default**</td>";
  "      <td>built-in defaults for all Types</td>";
  "      <td></td>";
  "    </tr>";
  "    <tr>";
  "      <td>**global**</td>";
  "      <td>all Types parsed after the config is applied</td>";
  "      <td>";
  "```ts title=" +:+ dq +:+ "config.ts" +:+ dq;
  "import { configure } from " +:+ dq +:+ "arktype/config" +:+ dq;
  "// use the " +:+ dq +:+ "arktype/config" +:+ dq +:+ " entrypoint";
  "configure({ numberAllowsNaN: true })";
  "```";
  "";
  "```ts title=" +:+ dq +:+ "app.ts" +:+ dq;
  "import " +:+ dq +:+ "./config.ts" +:+ dq;
  "// import your config file before arktype";
  "import { type } from " +:+ dq +:+ "arktype" +:+ dq;
  "";
  "type.number.allows(Number.NaN) // true";
  "```";
  "";
  "     </td>";
  "    </tr>";
  "    <tr>";
  "      <td>**scope**</td>";
  "      <td>all Types parsed in the configured Scope</td>";
  "      <td>";
  "";
  "```ts";
  "const myScope = scope(";
  tab +:+ "{ User: { age: " +:+ dq +:+ "number < 100" +:+ dq +:+ " } },";
  tab +:+ "{";
  tab +:+ tab +:+ "max: {";
  tab +:+ tab +:+ tab +:+ "actual: () => " +:+ dq +:+ "unacceptably large" +:+ dq;
  tab +:+ tab +:+ "}";
  tab +:+ "}";
  ")";
  "const types = myScope.export()";
  "// ArkErrors: age must be less than 100 (was unacceptably large)";
  "types.User({ name: " +:+ dq +:+ "Alice" +:+ dq +:+ ", age: 101 })";
  "const parsedAfter = myScope.type({";
  tab +:+ "age: " +:+ dq +:+ "number <= 100" +:+ dq;
  "})";
  "// ArkErrors: age must be at most 100 (was unacceptably large)";
  "parsedAfter({ age: 101 })";
  "```";
  "";
  "      </td>";
  "    </tr>";
  "    <tr>";
  "      <td>**type**</td>";
  "      <td>all Types shallowly referenced by the configured Type</td>";
  "      <td>";
  "";
  "```ts";
  "// avoid logging " +:+ dq +:+ "was xxx" +:+ dq +:+ " for password";
  "const Password = type(" +:+ dq +:+ "string >= 8" +:+ dq +:+ ").configure({ actual: () => " +:+ dq +:+ dq +:+ " })";
  "const User = type({";
  tab +:+ "email: " +:+ dq +:+ "string.email" +:+ dq +:+ ",";
  tab +:+ "password: Password";
  "})";
  "// ArkErrors: password must be at least length 8";
  "const out = User({";
  tab +:+ "email: " +:+ dq +:+ "david@arktype.io" +:+ dq +:+ ",";
  tab +:+ "password: " +:+ dq +:+ "ez123" +:+ dq;
  "})";
  "```";
  "";
  "      </td>";
  "    </tr>";
  "";
  "  </tbody>";
  "</table>";
  "";
  "Some options only apply at specific levels, as reflected in the corresponding input types.";
  "";
  "<Callout";
  tab +:+ "type=" +:+ dq +:+ "warn" +:+ dq;
  tab +:+ "title='Use the `" +:+ dq +:+ "arktype/config" +:+ dq +:+ "` entrypoint in a separate file for global config!'";
  ">";
  tab +:+ "If you need your config to apply to built-in keywords (important for options";
  tab +:+ "like `jitless`, `numberAllowsNaN`, `dateAllowsInvalid`), you should import and";
  tab +:+ "`configure` from `" +:+ dq +:+ "arktype/config" +:+ dq +:+ "` before importing anything from";
  tab +:+ "`" +:+ dq +:+ "arktype" +:+ dq +:+ "`.";
  "";
  "Otherwise, keywords will have already been parsed by the time your config applies!";
  "";
  "</Callout>";
  "";
  "### Errors";
  "";
  "To allow custom errors to be integrated seemlessly with built-in logic for composite errors (i.e. `union` and `intersection`), ArkType supports a set of composable options:";
  "";
  "<table>";
  "<thead>";
  "<tr>";
  "<th>optional</th>";
  "<th>description</th>";
  "<th>example</th>";
  "</tr>";
  "</thead>";
  "<tbody>";
  "<tr>";
  "<td>**description**</td>";
  "<td>";
  "✅ a summary of the constraint that could complete the phrase " +:+ dq +:+ "must be ___" +:+ dq;
  "";
  "🥇 reused by other metadata and should be your first go-to for customizing a message";
  "";
  "</td>";
  "<td>";
  "```ts";
  "const Password = type.string.atLeastLength(8).describe(" +:+ dq +:+ "a valid password" +:+ dq +:+ ")";
  "// ArkErrors: must be a valid password";
  "const out = Password(" +:+ dq +:+ "ez123" +:+ dq +:+ ")";
  "```";
  "</td>";
  "</tr>";
  "<tr>";
  "<td>**expected**</td>";
  "<td>";
  "✅ a function accepting the error context and returning a string of the format " +:+ dq +:+ "must be ___" +:+ dq;
  "";
  "✅ specific to errors and takes precedence over `description` in those cases";
  "";
  "</td>";
  "    <td>";
  "```ts";
  "const Password = type.string.atLeastLength(8).configure({";
  tab +:+ "expected: ctx =>";
  tab +:+ tab +:+ "ctx.code === " +:+ dq +:+ "minLength" +:+ dq +:+ " ? `${ctx.rule} characters or better` : " +:+ dq +:+ "way better" +:+ dq;
  "})";
  "// ArkErrors: must be 8 characters or better (was 5)";
  "const out1 = Password(" +:+ dq +:+ "ez123" +:+ dq +:+ ").toString()";
  "// ArkErrors: must be way better (was a number)";
  "const out2 = Password(12345678).toString()";
  "```";
  "</td>";
  "</tr>";
  "<tr>";
  "<td>**actual**</td>";
  "<td>";
  "✅ a function accepting the data that caused the error and returning a string of the format " +:+ dq +:+ "(was ___)" +:+ dq;
  "";
  "✅ if an empty string is returned, the actual portion of the message will be omitted";
  "";
  "</td>";
  "    <td>";
  "```ts";
  "const Password = type(" +:+ dq +:+ "string >= 8" +:+ dq +:+ ").configure({ actual: () => " +:+ dq +:+ dq +:+ " })";
  "// ArkErrors: must be at least length 8";
  "const out = Password(" +:+ dq +:+ "ez123" +:+ dq +:+ ")";
  "```";
  "</td>";
  "</tr>";
  "<tr>";
  "<td>**problem**</td>";
  "<td>";
  "✅ a function accepting the results of `expected` and `actual` in addition to other context and returning a complete description of the problem like " +:+ dq +:+ "must be a string (was a number)" +:+ dq;
  "";
  "❌ may not apply to composite errors like unions";
  "";
  "</td>";
  "<td>";
  "```ts";
  "const Password = type(" +:+ dq +:+ "string >= 8" +:+ dq +:+ ").configure({";
  tab +:+ "problem: ctx => `${ctx.actual} isn't ${ctx.expected}`";
  "})";
  "// ArkErrors: 5 isn't at least length 8";
  "const out1 = Password(" +:+ dq +:+ "ez123" +:+ dq +:+ ")";
  "// ArkErrors: a number isn't a string";
  "const out2 = Password(12345678)";
  "```";
  "</td>";
  "</tr>";
  "<tr>";
  "<td>**message**</td>";
  "<td>";
  "✅ a function accepting the result of `problem` in addition to other context and returning a complete description of the problem including the path at which it occurred";
  "";
  "❌ may not apply to composite errors like unions";
  "";
  "</td>";
  "<td>";
  "```ts";
  "const User = type({";
  tab +:+ "password: " +:+ dq +:+ "string >= 8" +:+ dq;
  "}).configure({";
  tab +:+ "message: ctx =>";
  tab +:+ tab +:+ "`${ctx.propString || " +:+ dq +:+ "(root)" +:+ dq +:+ "}: ${ctx.actual} isn't ${ctx.expected}`";
  "})";
  "// ArkErrors: (root): a string isn't an object";
  "const out1 = User(" +:+ dq +:+ "ez123" +:+ dq +:+ ")";
  "// `.configure` only applies shallowly, so the nested error isn't changed!";
  "// ArkErrors: password must be at least length 8 (was 5)";
  "const out2 = User({ password: " +:+ dq +:+ "ez123" +:+ dq +:+ " })";
  "```";
  "</td>";
  "</tr>";
  "</tbody>";
  "</table>";
  "";
  "#### By Code";
  "";
  "Errors can also be configured by their associated `code` property at a _scope_ or _global_ level.";
  "";
  "For example:";
  "";
  "```ts";
  "const mod = type.module(";
  tab +:+ "{ isEven: " +:+ dq +:+ "number%2" +:+ dq +:+ " },";
  tab +:+ "{";
  tab +:+ tab +:+ "divisor: {";
  tab +:+ tab +:+ tab +:+ "// the available `ctx` types will include data specific to your errors";
  tab +:+ tab +:+ tab +:+ "expected: ctx => `% ${ctx.rule} !== 0`,";
  tab +:+ tab +:+ tab +:+ "problem: ctx => `${ctx.actual} ${ctx.expected}`";
  tab +:+ tab +:+ "}";
  tab +:+ "}";
  ")";
  "// ArkErrors: 3 % 2 !== 0";
  "mod.isEven(3)";
  "```";
  "";
  "#### ArkErrors";
  "";
  "For use cases like i18n that fall outside the scope of this composable message config, the `ArkErrors` array returned on validation failure contains `ArkError` instances that can be discriminated via calls like `.hasCode(" +:+ dq +:+ "divisor" +:+ dq +:+ ")` and contain contextual data specific to that error type as well as getters for each composable error part.";
  "";
  "These `ArkError` instances can be arbitrarily transformed and composed with an internationalization library. This is still a topic we're working on investigating and documenting, so please reach out with any questions or feedback!";
  "";
  "### Keywords";
  "";
  "Built-in keywords like `string.email` can be globally configured.";
  "";
  "This can be very helpful for customizing error messages without needing to create your own aliases or wrappers.";
  "";
  "```ts title=" +:+ dq +:+ "config.ts" +:+ dq;
  "import { configure } from " +:+ dq +:+ "arktype/config" +:+ dq;
  "";
  "configure({";
  tab +:+ "keywords: {";
  tab +:+ tab +:+ "string: " +:+ dq +:+ "shorthand description" +:+ dq +:+ ",";
  tab +:+ tab +:+ dq +:+ "string.email" +:+ dq +:+ ": {";
  tab +:+ tab +:+ tab +:+ "actual: () => " +:+ dq +:+ "definitely fake" +:+ dq;
  tab +:+ tab +:+ "}";
  tab +:+ "}";
  "})";
  "```";
  "";
  "```ts title=" +:+ dq +:+ "app.ts" +:+ dq;
  "import " +:+ dq +:+ "./config.ts" +:+ dq;
  "// import your config file before arktype";
  "import { type } from " +:+ dq +:+ "arktype" +:+ dq;
  "";
  "const User = type({";
  tab +:+ "name: " +:+ dq +:+ "string" +:+ dq +:+ ",";
  tab +:+ "email: " +:+ dq +:+ "string.email" +:+ dq;
  "})";
  "";
  "const out = User({";
  tab +:+ "// ArkErrors: name must be shorthand description (was a number)";
  tab +:+ "name: 5,";
  tab +:+ "// ArkErrors: email must be an email address (was definitely fake)";
  tab +:+ "email: " +:+ dq +:+ "449 Canal St" +:+ dq;
  "})";
  "```";
  "";
  "The options you can provide here are identical to those used to [configure a Type directly](/docs/expressions#meta), and can also be [extended at a type-level to include custom metadata](/docs/configuration#custom).";
  "";
  "### Clone";
  "";
  "By default, before a [morph](/docs/intro/morphs-and-more) is applied, ArkType will deeply clone the original input value with a built-in `deepClone` function that tries to make reasonable assumptions about preserving prototypes etc. The implementation of `deepClone` can be found [here](https://github.com/arktypeio/arktype/blob/main/ark/util/clone.ts).";
  "";
  "You can provide an alternate clone implementation to the `clone` config option.";
  "";
  "```ts title=" +:+ dq +:+ "config.ts" +:+ dq;
  "import { configure } from " +:+ dq +:+ "arktype/config" +:+ dq;
  "";
  "configure({ clone: structuredClone })";
  "```";
  "";
  "```ts title=" +:+ dq +:+ "app.ts" +:+ dq;
  "import " +:+ dq +:+ "./config.ts" +:+ dq;
  "// import your config file before arktype";
  "import { type } from " +:+ dq +:+ "arktype" +:+ dq;
  "";
  "// will now create a new object using structuredClone";
  "const UserForm = type({";
  tab +:+ "age: " +:+ dq +:+ "string.numeric.parse" +:+ dq;
  "})";
  "```";
  "";
  "To mutate the input object directly, you can set the `clone` config option to `false`.";
  "";
  "```ts title=" +:+ dq +:+ "config.ts" +:+ dq;
  "import { configure } from " +:+ dq +:+ "arktype/config" +:+ dq;
  "";
  "configure({ clone: false })";
  "```";
  "";
  "```ts title=" +:+ dq +:+ "app.ts" +:+ dq;
  "import " +:+ dq +:+ "./config.ts" +:+ dq;
  "// import your config file before arktype";
  "import { type } from " +:+ dq +:+ "arktype" +:+ dq;
  "";
  "const UserForm = type({";
  tab +:+ "age: " +:+ dq +:+ "string.numeric.parse" +:+ dq;
  "})";
  "";
  "const formData = {";
  tab +:+ "age: " +:+ dq +:+ "42" +:+ dq;
  "}";
  "";
  "const out = UserForm(formData)";
  "";
  "// the original object's age key is now a number";
  "console.log(formData.age)";
  "```";
  "";
  "### onUndeclaredKey";
  "";
  "Like TypeScript, ArkType defaults to ignoring undeclared keys during validation. However, it also supports two additional behaviors:";
  "";
  "- `" +:+ dq +:+ "ignore" +:+ dq +:+ "` (default): Allow undeclared keys on input, preserve them on output";
  "- `" +:+ dq +:+ "delete" +:+ dq +:+ "`: Allow undeclared keys on input, delete them before returning output";
  "- `" +:+ dq +:+ "reject" +:+ dq +:+ "`: Reject input with undeclared keys";
  "";
  "These behaviors can be associated with individual Types via the built-in `" +:+ dq +:+ "+" +:+ dq +:+ "` syntax (see [those docs](/docs/objects#properties-undeclared) for more on how they work). You can also change the default globally:";
  "";
  "```ts title=" +:+ dq +:+ "config.ts" +:+ dq;
  "import { configure } from " +:+ dq +:+ "arktype/config" +:+ dq;
  "";
  "configure({ onUndeclaredKey: " +:+ dq +:+ "delete" +:+ dq +:+ " })";
  "```";
  "";
  "```ts title=" +:+ dq +:+ "app.ts" +:+ dq;
  "import " +:+ dq +:+ "./config.ts" +:+ dq;
  "// import your config file before arktype";
  "import { type } from " +:+ dq +:+ "arktype" +:+ dq;
  "";
  "const UserForm = type({";
  tab +:+ "name: " +:+ dq +:+ "string" +:+ dq;
  "})";
  "";
  "// out is now { name: " +:+ dq +:+ "Alice" +:+ dq +:+ " }";
  "const out = UserForm({";
  tab +:+ "name: " +:+ dq +:+ "Alice" +:+ dq +:+ ",";
  tab +:+ "age: " +:+ dq +:+ "42" +:+ dq;
  "})";
  "```";
  "";
  "### exactOptionalPropertyTypes";
  "";
  "By default, ArkType validates optional keys as if [TypeScript's `exactOptionalPropertyTypes` is set to `true`](https://www.typescriptlang.org/tsconfig/#exactOptionalPropertyTypes).";
  "";
  "<details>";
  tab +:+ "<summary>See an example</summary>";
  "";
  "```ts";
  "const MyObj = type({";
  tab +:+ dq +:+ "key?" +:+ dq +:+ ": " +:+ dq +:+ "number" +:+ dq;
  "})";
  "";
  "// valid data";
  "const validResult = MyObj({})";
  "";
  "// Error: key must be a number (was undefined)";
  "const errorResult = MyObj({ key: undefined })";
  "```";
  "";
  "</details>";
  "";
  "This approach allows the most granular control over optionality, as `| undefined` can be added to properties that should accept it.";
  "";
  "However, if you have not enabled TypeScript's `exactOptionalPropertyTypes` setting, you may globally configure ArkType's `exactOptionalPropertyTypes` to `false` to match TypeScript's behavior. If you do this, we'd recommend making a plan to enable `exactOptionalPropertyTypes` in the future.";
  "";
  "```ts title=" +:+ dq +:+ "config.ts" +:+ dq;
  "import { configure } from " +:+ dq +:+ "arktype/config" +:+ dq;
  "";
  "// since the default in ArkType is `true`, this will only have an effect if set to `false`";
  "configure({ exactOptionalPropertyTypes: false })";
  "```";
  "";
  "```ts title=" +:+ dq +:+ "app.ts" +:+ dq;
  "import " +:+ dq +:+ "./config.ts" +:+ dq;
  "// import your config file before arktype";
  "import { type } from " +:+ dq +:+ "arktype" +:+ dq;
  "";
  "const MyObj = type({";
  tab +:+ dq +:+ "key?" +:+ dq +:+ ": " +:+ dq +:+ "number" +:+ dq;
  "})";
  "";
  "// valid data";
  "const validResult = MyObj({})";
  "";
  "// now also valid data (would be an error by default)";
  "const secondResult = MyObj({ key: undefined })";
  "```";
  "";
  "<Callout type=" +:+ dq +:+ "warn" +:+ dq +:+ " title=" +:+ dq +:+ "exactOptionalPropertyTypes does not yet affect default values!" +:+ dq +:+ ">";
  "";
  "```ts";
  "const MyObj = type({";
  tab +:+ "key: " +:+ dq +:+ "number = 5" +:+ dq;
  "})";
  "";
  "// { key: 5 }";
  "const omittedResult = MyObj({})";
  "";
  "// { key: undefined }";
  "const undefinedResult = MyObj({ key: undefined })";
  "```";
  "";
  "Support for this is tracked as part of [this broader configurable defaultability issue](https://github.com/arktypeio/arktype/issues/1390).";
  "";
  "</Callout>";
  "";
  "### jitless";
  "";
  "By default, when a `Type` is instantiated, ArkType will precompile optimized validation logic that will run when the type is invoked. This behavior is disabled by default in environments that don't support `new Function`, e.g. Cloudflare Workers.";
  "";
  "If you'd like to opt out of it for another reason, you can set the `jitless` config option to `true`.";
  "";
  "```ts title=" +:+ dq +:+ "config.ts" +:+ dq;
  "import { configure } from " +:+ dq +:+ "arktype/config" +:+ dq;
  "";
  "configure({ jitless: true })";
  "```";
  "";
  "```ts title=" +:+ dq +:+ "app.ts" +:+ dq;
  "import " +:+ dq +:+ "./config.ts" +:+ dq;
  "// import your config file before arktype";
  "import { type } from " +:+ dq +:+ "arktype" +:+ dq;
  "";
  "// will not be precompiled";
  "const MyObject = type({";
  tab +:+ "foo: " +:+ dq +:+ "string" +:+ dq;
  "})";
  "```";
  "";
  "### onFail";
  "";
  "In some domains, you may always want to throw on failed validation or transform the result in some other way.";
  "";
  "By specifying `onFail` in your global config, you can control what happens when you invoke a `Type` on invalid data:";
  "";
  "```ts title=" +:+ dq +:+ "config.ts" +:+ dq;
  "import { configure } from " +:+ dq +:+ "arktype/config" +:+ dq;
  "";
  "const config = configure({";
  tab +:+ "onFail: errors => errors.throw()";
  "})";
  "";
  "// be sure to specify both the runtime and static configs";
  "";
  "declare global {";
  tab +:+ "interface ArkEnv {";
  tab +:+ tab +:+ "onFail: typeof config.onFail";
  tab +:+ "}";
  "}";
  "```";
  "";
  "```ts title=" +:+ dq +:+ "app.ts" +:+ dq;
  "import " +:+ dq +:+ "./config.ts" +:+ dq;
  "// import your config file before arktype";
  "import { type } from " +:+ dq +:+ "arktype" +:+ dq;
  "";
  "// data is inferred as string- no need to discriminate!";
  "const data = type.string(" +:+ dq +:+ "foo" +:+ dq +:+ ")";
  "";
  "// now thrown instead of returned";
  "// ArkErrors: must be a string (was number)";
  "const bad = type.string(5)";
  "```";
  "";
  "### metadata";
  "";
  "Additional arbitrary metadata can also be associated with a Type.";
  "";
  "It can even be made type-safe via an interface extension ArkType exposes for this purpose:";
  "";
  "```ts";
  "// add this anywhere in your project";
  "declare global {";
  tab +:+ "interface ArkEnv {";
  tab +:+ tab +:+ "meta(): {";
  tab +:+ tab +:+ tab +:+ "// meta properties should always be optional";
  tab +:+ tab +:+ tab +:+ "secretIngredient?: string";
  tab +:+ tab +:+ "}";
  tab +:+ "}";
  "}";
  "";
  "// now types you define can specify and access your metadata";
  "const MrPingsSecretIngredientSoup = type({";
  tab +:+ "broth: " +:+ dq +:+ "'miso' | 'vegetable'" +:+ dq +:+ ",";
  tab +:+ "ingredients: " +:+ dq +:+ "string[]" +:+ dq;
  "}).configure({ secretIngredient: " +:+ dq +:+ "nothing!" +:+ dq +:+ " })";
  "```";
  "";
  "### toJsonSchema";
  "";
  "Some ArkType features don't have JSON Schema equivalents. By default, `toJsonSchema()` will throw in these cases.";
  "";
  "This behavior can be configured granularly to match your needs.";
  "";
  "```ts";
  "const T = type({";
  tab +:+ dq +:+ "[symbol]" +:+ dq +:+ ": " +:+ dq +:+ "string" +:+ dq +:+ ",";
  tab +:+ "birthday: " +:+ dq +:+ "Date" +:+ dq;
  "})";
  "";
  "const schema = T.toJsonSchema({";
  tab +:+ "fallback: {";
  tab +:+ tab +:+ "// ✅ the " +:+ dq +:+ "default" +:+ dq +:+ " key is a fallback for any non-explicitly handled code";
  tab +:+ tab +:+ "// ✅ ctx includes " +:+ dq +:+ "base" +:+ dq +:+ " (represents the schema being generated) and other code-specific props";
  tab +:+ tab +:+ "// ✅ returning `ctx.base` will effectively ignore the incompatible constraint";
  tab +:+ tab +:+ "default: ctx => ctx.base,";
  tab +:+ tab +:+ "// handle specific incompatibilities granularly";
  tab +:+ tab +:+ "date: ctx => ({";
  tab +:+ tab +:+ tab +:+ "...ctx.base,";
  tab +:+ tab +:+ tab +:+ "type: " +:+ dq +:+ "string" +:+ dq +:+ ",";
  tab +:+ tab +:+ tab +:+ "format: " +:+ dq +:+ "date-time" +:+ dq +:+ ",";
  tab +:+ tab +:+ tab +:+ "description: ctx.after ? `after ${ctx.after}` : " +:+ dq +:+ "anytime" +:+ dq;
  tab +:+ tab +:+ "})";
  tab +:+ "}";
  "})";
  "";
  "const result = {";
  tab +:+ "$schema: " +:+ dq +:+ "https://json-schema.org/draft/2020-12/schema" +:+ dq +:+ ",";
  tab +:+ "type: " +:+ dq +:+ "object" +:+ dq +:+ ",";
  tab +:+ "properties: {";
  tab +:+ tab +:+ "// Date instance is now a date-time string as specified by the `date` handler";
  tab +:+ tab +:+ "birthday: { type: " +:+ dq +:+ "string" +:+ dq +:+ ", format: " +:+ dq +:+ "date-time" +:+ dq +:+ ", description: " +:+ dq +:+ "anytime" +:+ dq +:+ " }";
  tab +:+ "},";
  tab +:+ "required: [" +:+ dq +:+ "birthday" +:+ dq +:+ "]";
  tab +:+ "// symbolic index signature ignored as specified by the `default` handler";
  "}";
  "```";
  "";
  "a `default` handler can also be specified at the root of a `fallback` config:";
  "";
  "```ts";
  "const T = type({";
  tab +:+ dq +:+ "[symbol]" +:+ dq +:+ ": " +:+ dq +:+ "string" +:+ dq +:+ ",";
  tab +:+ "birthday: " +:+ dq +:+ "Date" +:+ dq;
  "})";
  "";
  "//--- cut ---";
  "";
  "const schema = T.toJsonSchema({";
  tab +:+ "// " +:+ dq +:+ "just make it work" +:+ dq;
  tab +:+ "fallback: ctx => ctx.base";
  "})";
  "```";
  "";
  "These options can also be set at a [global or scope-level](/docs/configuration#levels).";
  "";
  "### Fallback Codes";
  "";
  "This is the full list of configurable reasons `toJsonSchema()` can fail.";
  "";
  "| Code                  | Description                                                 |";
  "| --------------------- | ----------------------------------------------------------- |";
  "| `arrayObject`         | arrays with object properties                               |";
  "| `arrayPostfix`        | arrays with postfix elements                                |";
  "| `defaultValue`        | non-serializable default value                              |";
  "| `domain`              | non-serializable type keyword (always `bigint` or `symbol`) |";
  "| `morph`               | transformation                                              |";
  "| `patternIntersection` | multiple regex constraints                                  |";
  "| `predicate`           | custom narrow function                                      |";
  "| `proto`               | non-serializable `instanceof`                               |";
  "| `symbolKey`           | symbolic key on an object                                   |";
  "| `unit`                | non-serializable `===` reference (e.g. `undefined`)         |";
  "| `date`                | a Date instance (supercedes `proto` for Dates )             |";
  "";
  "### prototypes";
  "";
  "When you `.infer` your Types, ArkType traverses them and extracts special values like morphs, e.g. `(In: string) => Out<number>`.";
  "";
  "Though generally this is able to preserve the original type, it is inefficient and can accidentally expand certain object types.";
  "";
  "You can use the type-level `prototypes` config to tell ArkType to treat those types as external:";
  "";
  "```ts";
  "declare global {";
  tab +:+ "interface ArkEnv {";
  tab +:+ tab +:+ "prototypes(): MySpecialClass";
  tab +:+ "}";
  "}";
  "";
  "class MySpecialClass {}";
  "";
  "const T = type.instanceOf(MySpecialClass)";
  "//    ^? Type<MySpecialClass>";
  "```"
].

(** *** Reading the guide *)

Definition drop_chars (n : nat) (s : string) : string :=
  String.substring n (String.length s - n) s.

Definition contains (sub s : string) : bool :=
  match String.index 0 sub s with
  | Some _ => true
  | None => false
  end.

(** The text after the first occurrence of [sub], if there is one. *)
Definition after (sub s : string) : option string :=
  match String.index 0 sub s with
  | Some i => Some (drop_chars (i + String.length sub) s)
  | None => None
  end.

(** The text before the first occurrence of [sub], if there is one. *)
Definition before (sub s : string) : option string :=
  match String.index 0 sub s with
  | Some i => Some (String.substring 0 i s)
  | None => None
  end.

Definition lower_char (c : ascii) : ascii :=
  let n := nat_of_ascii c in
  if Nat.leb 65 n && Nat.leb n 90 then ascii_of_nat (n + 32) else c.

Fixpoint lower (s : string) : string :=
  match s with
  | EmptyString => EmptyString
  | String c rest => String (lower_char c) (lower rest)
  end.

Inductive line_kind :=
  | Heading (title : string)
  | FenceOpen (info : string)
  | FenceClose
  | Code
  | Text.

Definition fence : string := "```".

(** A third-level heading line, [### title]. *)
Definition heading (line : string) : option string :=
  if String.prefix "### " line then Some (drop_chars 4 line) else None.

(** Each line with its kind. A fence line opens or closes a code block, and
    nothing inside a code block is a heading. *)
Fixpoint classify (in_code : bool) (ls : list string)
  : list (line_kind * string) :=
  match ls with
  | [] => []
  | l :: rest =>
      if String.prefix fence l then
        if in_code then (FenceClose, l) :: classify false rest
        else (FenceOpen (drop_chars 3 l), l) :: classify true rest
      else if in_code then (Code, l) :: classify true rest
      else
        match heading l with
        | Some t => (Heading t, l) :: classify false rest
        | None => (Text, l) :: classify false rest
        end
  end.

Record section := {
  title : string;
  body : list (line_kind * string)
}.

(** The lines up to the first heading, and the sections after it. *)
Fixpoint split_sections (ls : list (line_kind * string))
  : list (line_kind * string) * list section :=
  match ls with
  | [] => ([], [])
  | (k, l) :: rest =>
      let '(pre, secs) := split_sections rest in
      match k with
      | Heading t => ([], {| title := t; body := pre |} :: secs)
      | _ => ((k, l) :: pre, secs)
      end
  end.

Definition sections (ls : list string) : list section :=
  snd (split_sections (classify false ls)).

(** The fenced code blocks of a section body: the code lines after each
    opening fence, and the blocks that follow. *)
Fixpoint blocks_from (ls : list (line_kind * string))
  : list string * list (list string) :=
  match ls with
  | [] => ([], [])
  | (k, l) :: rest =>
      let '(cur, blocks) := blocks_from rest in
      match k with
      | Code => (l :: cur, blocks)
      | FenceOpen _ => ([], cur :: blocks)
      | _ => ([], blocks)
      end
  end.

Definition code_blocks (s : section) : list (list string) :=
  snd (blocks_from (body s)).

Definition block_text (block : list string) : string :=
  String.concat lf block.

(** The argument text of the first [configure({ ... })] call of a block. *)
Definition configure_arguments (block : list string) : option string :=
  match after "configure({" (block_text block) with
  | Some rest => before "})" rest
  | None => None
  end.

(** The block calls [configure] with an object that sets [key]. *)
Definition configures (key : string) (block : list string) : bool :=
  match configure_arguments block with
  | Some args => contains (key +:+ ":") args
  | None => false
  end.

Definition has_configure_example (key : string) (s : section) : bool :=
  existsb (configures key) (code_blocks s).

(** The sections whose heading is the key, letter case aside. *)
Definition sections_for (key : string) (ls : list string) : list section :=
  List.filter (fun s => String.eqb (lower (title s)) (lower key))
              (sections ls).

(** One listed behaviour of an option: [- `"value"` (default): summary]. *)
Record behavior := {
  value : string;
  is_default : bool
}.

Definition bullet (line : string) : option behavior :=
  if String.prefix ("- `" +:+ dq) line then
    let rest := drop_chars 4 line in
    match before (dq +:+ "`") rest, after (dq +:+ "`") rest with
    | Some v, Some tail =>
        Some {| value := v; is_default := String.prefix " (default):" tail |}
    | _, _ => None
    end
  else None.

Definition behaviors (s : section) : list behavior :=
  flat_map (fun kl => match fst kl, bullet (snd kl) with
                      | Text, Some b => [b]
                      | _, _ => []
                      end) (body s).

(** The configuration keys the data-model section names. *)
Definition named_keys : list string :=
  ["onUndeclaredKey"; "jitless"; "onFail"; "clone"].

End Docs.

(** ** The home layout component: [ark/docs/app/(home)/layout.tsx] *)

Module Layout.

(** JavaScript values as far as the component handles them. An object is a
    finite map from property names to values; a React element is its
    component together with its props object. *)
Inductive value :=
  | VUndefined
  | VNull
  | VBool (b : bool)
  | VNum (n : Z)
  | VStr (s : string)
  | VObj (fields : gmap string value)
  | VElem (component : string) (props : gmap string value).

(** Property read [o.k]: a missing property reads as [undefined]. *)
Definition get (o : gmap string value) (k : string) : value :=
  default VUndefined (o !! k).

(** Object spread [...v] into an object literal: the own properties of an
    object, and nothing for [undefined] or [null]. [nav] is typed as an
    optional object. *)
Definition spread (v : value) : gmap string value :=
  match v with
  | VObj fields => fields
  | _ => ∅
  end.

Section Component.

(** [baseOptions], imported from [../layout.config.tsx]. *)
Variable baseOptions : gmap string value.

(** [<FloatYourBoat kind="header" />] *)
Definition float_your_boat_header : value :=
  VElem "FloatYourBoat" {[ "kind" := VStr "header" ]}.

(** [{ ...baseOptions.nav, children: <FloatYourBoat kind="header" /> }] *)
Definition nav_prop : gmap string value :=
  <[ "children" := float_your_boat_header ]> (spread (get baseOptions "nav")).

(** The default export:
    [<HomeLayout {...baseOptions} nav={...}>{children}</HomeLayout>].
    Props are written in source order: the spread, then [nav], then the
    element's children. The layout options type has no [key] or [ref]
    field, which React would take out of the props. *)
Definition layout (children : value) : value :=
  VElem "HomeLayout"
    (<[ "children" := children ]>
       (<[ "nav" := VObj nav_prop ]> baseOptions)).

End Component.

End Layout.

(** ** Further readings of the artifacts *)

(** *** The first rewrite rule and single-line messages *)

Module Rules.

Import ErrorLens.

(** The [i]-th default rewrite rule of the manifest, counted from 0. *)
Definition nth_rule (i : nat) : option Manifest.replace_rule :=
  match Manifest.errorLens_replace Manifest.arkdark with
  | Some rules => nth_error rules i
  | None => None
  end.

(** A run of literal code units in front of a pattern. *)
Fixpoint literal (w : list N) (rest : regex) : regex :=
  match w with
  | [] => rest
  | x :: w' => Seq (Char x) (literal w' rest)
  end.

(** The two literal runs of the first matcher. *)
Definition error_type_open : list N := code_units "'ErrorType<".

Definition error_type_close : list N := code_units ">'".

(** The first matcher of the manifest as read by [parse]: any code units of
    one line, the opening run, group 1 holding code units of one line, the
    closing run, code units of one line, and the end of the input. *)
Definition error_type_pattern : regex :=
  Seq (Star Dot)
    (literal error_type_open
       (Seq (Group 1 (Seq (Star Dot) Empty))
          (literal error_type_close
             (Seq (Star Dot) (Seq EndAnchor Empty))))).

(** The input after the run [w], when the input starts with it. *)
Fixpoint strip (w inp : list N) : option (list N) :=
  match w with
  | [] => Some inp
  | x :: w' =>
      match inp with
      | y :: inp' => if N.eqb x y then strip w' inp' else None
      | [] => None
      end
  end.

(** Whether the run [w] occurs somewhere in the input. *)
Fixpoint occurs (w inp : list N) : bool :=
  match strip w inp with
  | Some _ => true
  | None =>
      match inp with
      | [] => false
      | _ :: inp' => occurs w inp'
      end
  end.

Definition APOSTROPHE : N := 39%N.

Definition apostrophes (l : list N) : nat :=
  count_occ N.eq_dec l APOSTROPHE.

(** Text without any line terminator. *)
Definition single_line (l : list N) : Prop :=
  Forall (fun x => ~ In x line_terminators) l.

End Rules.

(** *** Secrets per step *)

Module Pipeline.

Import Workflow.

(** The secret names a step reads through its [with:] and [env:] values. *)
Definition step_secrets (s : step) : list string :=
  flat_map scalar_secrets (step_scalars s).

End Pipeline.

(** *** Titled code blocks of the guide *)

Module GuideExamples.

Import Docs.

(** The fenced code blocks of a text, each with the info string of its
    opening fence. *)
Fixpoint titled_from (ls : list (line_kind * string))
  : list string * list (string * list string) :=
  match ls with
  | [] => ([], [])
  | (k, l) :: rest =>
      let '(cur, blocks) := titled_from rest in
      match k with
      | Code => (l :: cur, blocks)
      | FenceOpen info => ([], (info, cur) :: blocks)
      | _ => ([], blocks)
      end
  end.

Definition titled_blocks (ls : list string)
  : list (string * list string) :=
  snd (titled_from (classify false ls)).

Definition app_info : string := "ts title=" +:+ dq +:+ "app.ts" +:+ dq.

Definition config_info : string := "ts title=" +:+ dq +:+ "config.ts" +:+ dq.

Definition blocks_titled (info : string) (ls : list string)
  : list (list string) :=
  map snd (List.filter (fun b => String.eqb (fst b) info) (titled_blocks ls)).

(** [import "./config.ts"] *)
Definition config_file_import : string :=
  "import " +:+ dq +:+ "./config.ts" +:+ dq.

(** [import { configure } from "arktype/config"] *)
Definition configure_import : string :=
  "import { configure } from " +:+ dq +:+ "arktype/config" +:+ dq.

(** A line that imports from the main entry point, [from "arktype"]. *)
Definition imports_arktype (line : string) : bool :=
  contains ("from " +:+ dq +:+ "arktype" +:+ dq) line.

(** The index of the first line that satisfies [p]. *)
Fixpoint first_index (p : string -> bool) (ls : list string) : option nat :=
  match ls with
  | [] => None
  | l :: rest =>
      if p l then Some 0
      else option_map S (first_index p rest)
  end.

(** The block imports the config file, and imports from the main entry
    point only after that. *)
Definition config_before_arktype (block : list string) : bool :=
  match first_index (String.eqb config_file_import) block with
  | Some i =>
      match first_index imports_arktype block with
      | Some j => Nat.ltb i j
      | None => true
      end
  | None => false
  end.

(** The block imports [configure] from the config entry point and nothing
    from the main entry point. *)
Definition config_entry_only (block : list string) : bool :=
  existsb (String.eqb configure_import) block &&
  negb (existsb imports_arktype block).

End GuideExamples.

(** * Properties *)

(** ** Shared lemmas *)

Lemma mem_true_iff (s : string) (l : list string) :
  mem s l = true <-> In s l.
Proof.
  unfold mem. rewrite existsb_exists. split.
  - intros [x [Hin Heq]]. apply String.eqb_eq in Heq. now subst.
  - intros Hin. exists s. split; [assumption | apply String.eqb_refl].
Qed.

Lemma mem_false_iff (s : string) (l : list string) :
  mem s l = false <-> ~ In s l.
Proof.
  rewrite <- mem_true_iff. destruct (mem s l); split; auto; try discriminate.
  intros H. now contradiction H.
Qed.

(** ** The publish workflow *)

Section WorkflowFacts.

Import Workflow.

Lemma publish_patterns_literal :
  forallb (fun entry =>
             forallb is_literal (default [] (branches (snd entry))) &&
             forallb is_literal (default [] (tags (snd entry))))
          (on publish) = true.
Proof. reflexivity. Qed.

(** C2: the workflow has exactly the two [on:] entries [push] (filtered to
    the branch pattern [main], with no tag filter) and
    [workflow_dispatch]; an event triggers it if and only if it is a push
    to the branch [main] or a manual dispatch. *)
Theorem publish_triggers :
  on publish =
    [("push", {| branches := Some ["main"]; tags := None |});
     ("workflow_dispatch", no_filters)] /\
  forall e : event,
    triggered_by publish e = true <->
    (event_name e = "push" /\ event_ref e = Branch "main") \/
    event_name e = "workflow_dispatch".
Proof.
  split; [reflexivity |].
  intros [n r]. unfold triggered_by, entry_fires. cbn -[String.eqb].
  change (String.eqb "push" "push") with true.
  change (String.eqb "workflow_dispatch" "push") with false.
  cbn -[String.eqb]. rewrite orb_false_r, andb_true_r.
  destruct (String.eqb_spec "push" n) as [Hp | Hp];
    destruct (String.eqb_spec "workflow_dispatch" n) as [Hw | Hw];
    subst; try discriminate; cbn -[String.eqb].
  - destruct r as [b | t]; cbn -[String.eqb].
    + unfold pattern_matches. rewrite !orb_false_r.
      destruct (String.eqb_spec "main" b) as [Hb | Hb]; subst.
      * split; auto.
      * split; [discriminate |].
        intros [[_ Heq] | Heq]; [| discriminate].
        inversion Heq. congruence.
    + split; [discriminate |].
      intros [[_ Heq] | Heq]; discriminate.
  - split; auto.
  - split; [discriminate |].
    intros [[Heq _] | Heq]; congruence.
Qed.

(** C3 as stated fails on the code: the Build docs step sets
    [NEXT_PUBLIC_POSTHOG_KEY], which is not one of the four listed names. *)
Lemma posthog_key_not_required :
  ~ ((forall s, In s (secrets_referenced publish) -> In s required_names) /\
     (forall v, In v (env_vars_set publish) -> In v required_names) /\
     env_lookup publish "NODE_AUTH_TOKEN" = env_lookup publish "NPM_TOKEN").
Proof.
  intros [_ [Hvars _]].
  assert (Hin : In "NEXT_PUBLIC_POSTHOG_KEY" required_names).
  { apply Hvars. cbn. left. reflexivity. }
  apply mem_true_iff in Hin. discriminate Hin.
Qed.

(** C3 (amended): the secrets the workflow reads are exactly
    [ORAMA_PRIVATE_API_KEY], [GITHUB_TOKEN] and [NPM_TOKEN]; the
    environment variables that steps bind to a secret are exactly the four
    listed names, with [NODE_AUTH_TOKEN] bound to the secret [NPM_TOKEN]
    like [NPM_TOKEN] itself; the only other variables set are
    [NEXT_PUBLIC_POSTHOG_KEY] and [NEXT_PUBLIC_POSTHOG_HOST], both bound
    to literal text in the Build docs step. *)
Theorem publish_secrets_and_env :
  (forall s, In s (secrets_referenced publish) <->
             In s ["ORAMA_PRIVATE_API_KEY"; "GITHUB_TOKEN"; "NPM_TOKEN"]) /\
  (forall v, In v (secret_bound_vars publish) <-> In v required_names) /\
  (forall v, In v (env_vars_set publish) <->
             In v required_names \/
             In v ["NEXT_PUBLIC_POSTHOG_KEY"; "NEXT_PUBLIC_POSTHOG_HOST"]) /\
  literal_bindings publish =
    [("NEXT_PUBLIC_POSTHOG_KEY",
        Lit "phc_vKr7tmA1TyRlKm9zm5TWVmrTWAybJ2fCk66FtZG49Om");
     ("NEXT_PUBLIC_POSTHOG_HOST", Lit "https://us.i.posthog.com")] /\
  incl (literal_bindings publish) (env build_docs) /\
  env_lookup publish "NODE_AUTH_TOKEN" = Some (Secret "NPM_TOKEN") /\
  env_lookup publish "NPM_TOKEN" = Some (Secret "NPM_TOKEN").
Proof.
  repeat split; try reflexivity.
  all: cbn; unfold incl; cbn; intuition (subst; auto 10).
Qed.

(** *** Job ordering *)

Lemma mem_cons (j id : string) (l : list string) :
  mem j (id :: l) = String.eqb j id || mem j l.
Proof. reflexivity. Qed.

Lemma sched_step_completed (w : workflow) (s s' : sched) (e : sched_event) :
  sched_step w s e = Some s' ->
  forall j, mem j (completed s') = true <->
            mem j (completed s) = true \/ e = Finish j.
Proof.
  intros Hstep j. destruct e as [id | id]; cbn in Hstep.
  - destruct (find_job w id) as [jb |]; [| discriminate].
    destruct (ready s jb); [| discriminate].
    injection Hstep as <-. cbn. split; [auto |].
    intros [H | H]; [assumption | discriminate].
  - destruct (running s id); [| discriminate].
    injection Hstep as <-. cbn [completed]. rewrite mem_cons.
    rewrite orb_true_iff, String.eqb_eq. split.
    + intros [-> | H]; auto.
    + intros [H | H]; [auto | injection H as ->; auto].
Qed.

(** A job counts as completed exactly when its [Finish] is in the trace
    (or it was completed before the trace began). *)
Lemma sched_run_completed (w : workflow) (t : list sched_event) :
  forall s s', sched_run w s t = Some s' ->
  forall j, mem j (completed s') = true <->
            mem j (completed s) = true \/ In (Finish j) t.
Proof.
  induction t as [| e t IH]; intros s s' Hrun j; cbn in Hrun.
  - injection Hrun as <-. cbn. tauto.
  - destruct (sched_step w s e) as [s1 |] eqn:Hstep; [| discriminate].
    rewrite (IH _ _ Hrun j), (sched_step_completed _ _ _ _ Hstep j).
    cbn. intuition congruence.
Qed.

(** C4: [deploy] declares [update-gh-pages] as its one dependency, and
    [release] declares none and is nobody's dependency. In the state
    reached by any accepted trace of starts and finishes, [deploy] can be
    started exactly when it has not been started and [update-gh-pages]
    has finished in that trace, while [release] can be started whenever
    it has not been started; there are accepted traces in which [release]
    runs alongside [update-gh-pages] and alongside [deploy]. *)
Theorem deploy_after_pages_release_free
    (t : list sched_event) (s : sched) :
  sched_run publish initial t = Some s ->
  needs deploy = ["update-gh-pages"] /\
  needs release = [] /\
  Forall (fun j => ~ In "release" (needs j)) (jobs publish) /\
  (is_Some (sched_step publish s (Start "deploy")) <->
     mem "deploy" (started s) = false /\
     In (Finish "update-gh-pages") t) /\
  (is_Some (sched_step publish s (Start "release")) <->
     mem "release" (started s) = false) /\
  (exists s1, sched_run publish initial pages_running = Some s1 /\
              running s1 "release" = true /\
              running s1 "update-gh-pages" = true) /\
  (exists s2, sched_run publish initial deploy_running = Some s2 /\
              running s2 "release" = true /\
              running s2 "deploy" = true).
Proof.
  intros Hrun.
  pose proof (sched_run_completed _ _ _ _ Hrun "update-gh-pages") as Hdone.
  cbn [completed initial mem existsb] in Hdone.
  split; [reflexivity |]. split; [reflexivity |].
  split. { repeat constructor; cbn; intuition discriminate. }
  split.
  { unfold sched_step.
    change (find_job publish "deploy") with (Some deploy).
    unfold ready. cbn [job_id needs deploy forallb].
    rewrite andb_true_r.
    destruct (mem "deploy" (started s)); cbn [negb andb].
    - split; [intros [x Hx]; discriminate | intros [Hx _]; discriminate].
    - destruct (mem "update-gh-pages" (completed s)) eqn:Hc.
      + split; [| eauto]. intros _. split; [reflexivity |].
        destruct Hdone as [Hd _]. destruct (Hd eq_refl) as [Hf | Hin].
        * discriminate Hf.
        * exact Hin.
      + split; [intros [x Hx]; discriminate |].
        intros [_ Hin]. destruct Hdone as [_ Hd].
        specialize (Hd (or_intror Hin)). discriminate Hd. }
  split.
  { unfold sched_step.
    change (find_job publish "release") with (Some release).
    unfold ready. cbn [job_id needs release forallb].
    rewrite andb_true_r.
    destruct (mem "release" (started s)); cbn [negb].
    - split; [intros [x Hx]; discriminate | discriminate].
    - split; [reflexivity | eauto]. }
  split; eexists; (split; [reflexivity |]); split; reflexivity.
Qed.

(** The theorem at a trace where the docs have been built and nothing
    else has run: [deploy] and [release] can both start. *)
Lemma deploy_after_pages_release_free_witness :
  sched_run publish initial
    [Start "update-gh-pages"; Finish "update-gh-pages"]
  = Some {| started := ["update-gh-pages"];
            completed := ["update-gh-pages"] |} /\
  is_Some (sched_step publish
             {| started := ["update-gh-pages"];
                completed := ["update-gh-pages"] |}
             (Start "deploy")).
Proof.
  split; [reflexivity |].
  apply (deploy_after_pages_release_free
           [Start "update-gh-pages"; Finish "update-gh-pages"]
           {| started := ["update-gh-pages"];
              completed := ["update-gh-pages"] |} eq_refl).
  split; [reflexivity | right; left; reflexivity].
Defined.

(** *** Permissions *)

(** C9: the workflow-level permissions are [write-all], the jobs are
    [update-gh-pages], [deploy] and [release], none of them has a
    [permissions] block of its own, and so each runs with [write-all]. *)
Theorem publish_permissions_write_all :
  workflow_permissions publish = Some WriteAll /\
  map job_id (jobs publish) = ["update-gh-pages"; "deploy"; "release"] /\
  Forall (fun j => job_permissions j = None /\
                   effective_permissions publish j = Some WriteAll)
         (jobs publish).
Proof.
  split; [reflexivity |]. split; [reflexivity |].
  repeat constructor.
Qed.

End WorkflowFacts.

(** ** The extension manifest *)

Section ManifestFacts.

Import Manifest.

(** C1: the manifest contributes exactly one grammar, with scope name
    [source.arktype.injection.ts] and path [injected.tmLanguage.json], and
    a scope is one of its injection targets if and only if it is one of the
    nine listed scopes. *)
Theorem grammar_injection_targets :
  exists g : grammar,
    grammars arkdark = Some [g] /\
    scopeName g = "source.arktype.injection.ts" /\
    path g = "injected.tmLanguage.json" /\
    forall s : string,
      In s (injectTo g) <->
      In s ["source.ts"; "source.tsx"; "source.js"; "source.jsx";
            "source.mdx"; "source.svelte"; "source.vue"; "source.astro";
            "text.html.markdown"].
Proof.
  eexists. split; [reflexivity |].
  split; [reflexivity |]. split; [reflexivity |].
  intros s. cbn [injectTo]. reflexivity.
Qed.

(** C8: [packageExtension] writes [arkdark.vsix], [publishVsce] and
    [publishOvsx] both publish [arkdark.vsix], and [publishExtension] runs
    the packaging, then the Marketplace publish, then the Open VSX publish,
    each only if the one before succeeded. *)
Theorem publish_extension_order (succeeds : command -> bool) (fuel : nat) :
  let package := ["vsce"; "package"; "--out"; "arkdark.vsix"] in
  let vsce := ["vsce"; "publish"; "-i"; "arkdark.vsix"] in
  let ovsx := ["ovsx"; "publish"; "-i"; "arkdark.vsix"] in
  option_map and_list (assoc "packageExtension" (scripts arkdark))
    = Some [package] /\
  option_map and_list (assoc "publishVsce" (scripts arkdark))
    = Some [vsce] /\
  option_map and_list (assoc "publishOvsx" (scripts arkdark))
    = Some [ovsx] /\
  flag_value "--out" package = Some "arkdark.vsix" /\
  flag_value "-i" vsce = flag_value "--out" package /\
  flag_value "-i" ovsx = flag_value "--out" package /\
  run_script (scripts arkdark) succeeds (S (S fuel)) "publishExtension"
    = Some (if succeeds package then
              if succeeds vsce then ([package; vsce; ovsx], succeeds ovsx)
              else ([package; vsce], false)
            else ([package], false)).
Proof.
  intros package vsce ovsx.
  repeat (split; [reflexivity |]).
  subst package vsce ovsx. vm_compute.
  repeat match goal with
         | |- context [succeeds ?c] => destruct (succeeds c)
         end; reflexivity.
Qed.

End ManifestFacts.

(** ** The configuration guide *)

Section DocsFacts.

Import Docs.

(** C6: each of the keys [onUndeclaredKey], [jitless], [onFail] and [clone]
    has exactly one section of the guide headed by it, and that section
    holds a code block that calls [configure] with an object setting the
    key; the [onUndeclaredKey] section lists exactly the behaviours
    [ignore] (marked as the default), [delete] and [reject]. *)
Theorem guide_documents_named_keys :
  Forall (fun key =>
            exists s : section,
              sections_for key guide = [s] /\
              has_configure_example key s = true)
         named_keys /\
  map behaviors (sections_for "onUndeclaredKey" guide) =
    [[ {| value := "ignore"; is_default := true |};
       {| value := "delete"; is_default := false |};
       {| value := "reject"; is_default := false |} ]].
Proof.
  split.
  - unfold named_keys.
    repeat (apply List.Forall_cons;
            [eexists; split; [vm_compute; reflexivity | vm_compute; reflexivity]
            |]).
    apply List.Forall_nil.
  - vm_compute. reflexivity.
Qed.

End DocsFacts.

(** ** The home layout *)

Section LayoutFacts.

Import Layout.

(** C10: for any [children] and any [baseOptions] without a [key] or [ref]
    field (the layout options type declares neither, and React keeps both
    out of the props), the default export returns a [HomeLayout] element
    whose [children] prop is the given value and whose [nav] prop is an
    object with [children] set to the [FloatYourBoat] element of kind
    [header]. When [baseOptions.nav] is an object, [nav] is that object
    with only its [children] field written over; when it is absent,
    [undefined] or [null], [nav] holds [children] alone. Apart from
    [children] and [nav], the props are those of [baseOptions]. *)
Theorem layout_frame (baseOptions : gmap string value) (children : value) :
  baseOptions !! "key" = None ->
  baseOptions !! "ref" = None ->
  exists props nav : gmap string value,
    layout baseOptions children = VElem "HomeLayout" props /\
    props !! "children" = Some children /\
    props !! "nav" = Some (VObj nav) /\
    nav !! "children"
      = Some (VElem "FloatYourBoat" {[ "kind" := VStr "header" ]}) /\
    (forall fields : gmap string value,
        baseOptions !! "nav" = Some (VObj fields) ->
        nav = <[ "children" :=
                   VElem "FloatYourBoat" {[ "kind" := VStr "header" ]} ]>
                fields /\
        delete "children" nav = delete "children" fields) /\
    (baseOptions !! "nav" = None \/
     baseOptions !! "nav" = Some VUndefined \/
     baseOptions !! "nav" = Some VNull ->
     nav = {[ "children" :=
                VElem "FloatYourBoat" {[ "kind" := VStr "header" ]} ]}) /\
    delete "children" (delete "nav" props)
      = delete "children" (delete "nav" baseOptions).
Proof.
  intros _ _.
  exists (<[ "children" := children ]>
            (<[ "nav" := VObj (nav_prop baseOptions) ]> baseOptions)),
         (nav_prop baseOptions).
  split; [reflexivity |].
  split; [apply lookup_insert_eq |].
  split; [rewrite lookup_insert_ne by discriminate; apply lookup_insert_eq |].
  split; [apply lookup_insert_eq |].
  split; [| split].
  - intros fields Hnav. unfold nav_prop, get. rewrite Hnav.
    cbn [default from_option id spread].
    split; [reflexivity | apply delete_insert_eq].
  - intros Hnav. unfold nav_prop, get.
    destruct Hnav as [-> | [-> | ->]]; cbn [default from_option id spread];
      apply insert_empty.
  - rewrite delete_insert_ne by discriminate.
    rewrite !delete_insert_eq. reflexivity.
Qed.

(** The theorem at options that hold [links] and a [nav] object with a
    [title] and a [children] of its own. *)
Lemma layout_frame_witness :
  ({[ "links" := VStr "docs";
      "nav" := VObj {[ "title" := VStr "ArkType";
                       "children" := VStr "old" ]} ]}
     : gmap string value) !! "key" = None /\
  ({[ "links" := VStr "docs";
      "nav" := VObj {[ "title" := VStr "ArkType";
                       "children" := VStr "old" ]} ]}
     : gmap string value) !! "ref" = None /\
  exists props nav : gmap string value,
    layout {[ "links" := VStr "docs";
              "nav" := VObj {[ "title" := VStr "ArkType";
                               "children" := VStr "old" ]} ]}
           (VStr "page")
      = VElem "HomeLayout" props /\
    props !! "children" = Some (VStr "page") /\
    props !! "nav" = Some (VObj nav) /\
    nav = <[ "children" :=
               VElem "FloatYourBoat" {[ "kind" := VStr "header" ]} ]>
            {[ "title" := VStr "ArkType"; "children" := VStr "old" ]} /\
    props !! "links" = Some (VStr "docs").
Proof.
  assert (Hkey : ({[ "links" := VStr "docs";
                     "nav" := VObj {[ "title" := VStr "ArkType";
                                      "children" := VStr "old" ]} ]}
                    : gmap string value) !! "key" = None) by reflexivity.
  assert (Href : ({[ "links" := VStr "docs";
                     "nav" := VObj {[ "title" := VStr "ArkType";
                                      "children" := VStr "old" ]} ]}
                    : gmap string value) !! "ref" = None) by reflexivity.
  split; [exact Hkey |]. split; [exact Href |].
  destruct (layout_frame _ (VStr "page") Hkey Href)
    as [props [nav [Hl [Hc [Hn [_ [Hobj [_ Hframe]]]]]]]].
  exists props, nav.
  split; [exact Hl |]. split; [exact Hc |]. split; [exact Hn |].
  split; [exact (proj1 (Hobj _ eq_refl)) |].
  apply (f_equal (fun m : gmap string value => m !! "links")) in Hframe.
  rewrite !lookup_delete_ne in Hframe by discriminate.
  rewrite Hframe. reflexivity.
Defined.

End LayoutFacts.

(** ** ErrorLens rewrite rules *)

Section ErrorLensFacts.

Import ErrorLens.

(** *** Greedy iteration over one-code-unit matchers *)

Lemma star_loop_one_nil (p : N -> bool) (n : nat)
    (c : gmap nat (list N)) (k : cont) :
  star_loop (one p) n [] c k = k [] c.
Proof. destruct n; reflexivity. Qed.

Lemma star_loop_one_cons (p : N -> bool) (n : nat) (x : N) (rest : list N)
    (c : gmap nat (list N)) (k : cont) :
  star_loop (one p) (S n) (x :: rest) c k =
  if p x then
    match star_loop (one p) n rest c k with
    | Some r => Some r
    | None => k (x :: rest) c
    end
  else k (x :: rest) c.
Proof.
  cbn [star_loop one]. destruct (p x); [| reflexivity].
  replace (Nat.ltb (length rest) (length (x :: rest))) with true;
    [reflexivity |].
  symmetry. apply Nat.ltb_lt. cbn. lia.
Qed.

(** If the rest of the pattern fails at every position of the input, so
    does the iteration. *)
Lemma star_loop_one_fails (p : N -> bool) (c : gmap nat (list N)) (k : cont) :
  forall (n : nat) (inp : list N),
    (forall pre s, inp = pre ++ s -> k s c = None) ->
    star_loop (one p) n inp c k = None.
Proof.
  induction n as [| n IH]; intros inp Hk.
  - cbn. apply (Hk [] inp). reflexivity.
  - destruct inp as [| x rest].
    + rewrite star_loop_one_nil. apply (Hk [] []). reflexivity.
    + rewrite star_loop_one_cons.
      assert (Hhere : k (x :: rest) c = None)
        by (apply (Hk [] (x :: rest)); reflexivity).
      destruct (p x); [| exact Hhere].
      rewrite IH; [exact Hhere |].
      intros pre s ->. apply (Hk (x :: pre) s). reflexivity.
Qed.

(** The iteration reads as far as it can: when it can read all of [pre],
    the rest of the pattern succeeds right after [pre] and at no later
    position, the result is that success. *)
Lemma star_loop_one_greedy (p : N -> bool) (c : gmap nat (list N)) (k : cont)
    (suf : list N) (r : result) :
  (forall a s, suf = a ++ s -> a <> [] -> k s c = None) ->
  k suf c = Some r ->
  forall (pre : list N) (n : nat),
    Forall (fun x => p x = true) pre ->
    length (pre ++ suf) <= n ->
    star_loop (one p) n (pre ++ suf) c k = Some r.
Proof.
  intros Hlater Hhere.
  induction pre as [| x pre IH]; intros n Hp Hlen.
  - cbn [app]. destruct n as [| n]; [exact Hhere |].
    destruct suf as [| y rest]; [rewrite star_loop_one_nil; exact Hhere |].
    rewrite star_loop_one_cons. destruct (p y); [| exact Hhere].
    rewrite star_loop_one_fails; [exact Hhere |].
    intros a s ->. apply (Hlater (y :: a) s); [reflexivity | discriminate].
  - destruct n as [| n]; [cbn in Hlen; lia |].
    cbn [app]. rewrite star_loop_one_cons.
    inversion Hp as [| ? ? Hx Hrest]; subst. rewrite Hx.
    rewrite IH; [reflexivity | exact Hrest | cbn in Hlen; lia].
Qed.

(** *** Lines *)

Lemma split_at_last_lf (msg : list N) :
  In LF msg ->
  exists pre l, msg = pre ++ LF :: l /\ Forall (fun x => x <> LF) l.
Proof.
  induction msg as [| x rest IH]; intros Hin; [destruct Hin |].
  destruct (in_dec N.eq_dec LF rest) as [Hrest | Hrest].
  - destruct (IH Hrest) as [pre [l [-> Hl]]].
    exists (x :: pre), l. split; [reflexivity | exact Hl].
  - destruct Hin as [-> | Hin]; [| contradiction].
    exists [], rest. split; [reflexivity |].
    apply List.Forall_forall. intros y Hy ->. contradiction.
Qed.

Lemma lines_from_no_lf (l : list N) :
  Forall (fun x => x <> LF) l ->
  forall cur, lines_from cur l = [cur ++ l].
Proof.
  induction 1 as [| x l Hx Hl IH]; intros cur; cbn [lines_from].
  - rewrite app_nil_r. reflexivity.
  - destruct (N.eqb_spec x LF) as [Heq | _]; [contradiction |].
    rewrite IH, <- app_assoc. reflexivity.
Qed.

Lemma lines_from_nonempty (msg cur : list N) : lines_from cur msg <> [].
Proof.
  revert cur. induction msg as [| x rest IH]; intros cur; cbn [lines_from].
  - discriminate.
  - destruct (N.eqb x LF); [discriminate | apply IH].
Qed.

Lemma last_skip (A : Type) (a d : A) (l : list A) :
  l <> [] -> List.last (a :: l) d = List.last l d.
Proof. destruct l; [congruence | reflexivity]. Qed.

(** The last line is what follows the last line feed. *)
Lemma last_line_after_lf (pre l : list N) :
  Forall (fun x => x <> LF) l ->
  last_line (pre ++ LF :: l) = l.
Proof.
  intros Hl. unfold last_line, lines.
  enough (H : forall cur,
             List.last (lines_from cur (pre ++ LF :: l)) [] = l) by apply H.
  induction pre as [| x pre IH]; intros cur; cbn [app lines_from].
  - change (N.eqb LF LF) with true. cbn iota.
    rewrite last_skip by apply lines_from_nonempty.
    rewrite lines_from_no_lf by exact Hl. reflexivity.
  - destruct (N.eqb x LF); [| apply IH].
    rewrite last_skip by apply lines_from_nonempty. apply IH.
Qed.

(** *** The last-line rule *)

Lemma not_lf_in_class (l : list N) :
  Forall (fun x => x <> LF) l ->
  Forall (fun x => in_class true [LF] x = true) l.
Proof.
  intros Hl. eapply List.Forall_impl; [| exact Hl].
  intros x Hx. unfold in_class. cbn [existsb].
  destruct (N.eqb_spec x LF); [contradiction | reflexivity].
Qed.

(** On a message that ends with a line feed and a line [l], the pattern
    matches from the first position up to the end, with group 1 = [l]. *)
Lemma last_line_pattern_matches (pre l : list N) :
  Forall (fun x => x <> LF) l ->
  matches last_line_pattern (pre ++ LF :: l) ∅ accept
  = Some ([], <[1 := l]> ∅).
Proof.
  intros Hl. unfold last_line_pattern. cbn [matches].
  apply (star_loop_one_greedy (in_class true [])).
  - intros a s Heq Ha. destruct s as [| y s]; [reflexivity |].
    cbn [one].
    destruct a as [| a0 a]; [congruence |].
    injection Heq as _ Heq.
    assert (Hy : y <> LF).
    { rewrite List.Forall_forall in Hl. apply Hl. rewrite Heq.
      apply in_or_app. right. left. reflexivity. }
    destruct (N.eqb_spec LF y); [congruence | reflexivity].
  - cbn [one]. change (N.eqb LF LF) with true. cbn iota.
    pose proof (star_loop_one_greedy (in_class true [LF]) ∅
                  (fun inp' c' =>
                     match inp' with
                     | [] => accept inp' (<[1 := consumed l inp']> c')
                     | _ :: _ => None
                     end)
                  [] ([], <[1 := l]> ∅)) as Hstar.
    rewrite <- (app_nil_r l) at 1 2.
    apply Hstar.
    + intros a s Heq Ha. destruct a; [congruence | discriminate].
    + unfold accept, consumed. cbn [length].
      rewrite Nat.sub_0_r, firstn_all. reflexivity.
    + apply not_lf_in_class, Hl.
    + reflexivity.
  - apply List.Forall_forall. reflexivity.
  - reflexivity.
Qed.

Lemma last_line_pattern_parsed :
  parse ("[^]*" +:+ lf +:+ "([^" +:+ lf +:+ "]*)$") = Some last_line_pattern.
Proof. vm_compute. reflexivity. Qed.

(** C5: the manifest depends on [usernamehw.errorlens] and supplies exactly
    four [errorLens.replace] rules, in order; the fourth has the matcher
    that reads any text, a line feed and a final run without line feed, and
    the message [$1]. On every message that holds a line feed this matcher
    matches with group 1 equal to the last line, and the rule rewrites the
    message to its last line. *)
Theorem errorlens_last_line_rule (msg : list N) :
  In LF msg ->
  Manifest.extensionDependencies Manifest.arkdark
    = Some ["usernamehw.errorlens"] /\
  exists r1 r2 r3 r4 : Manifest.replace_rule,
    Manifest.errorLens_replace Manifest.arkdark = Some [r1; r2; r3; r4] /\
    map Manifest.message [r1; r2; r3; r4] = ["$1"; "$1"; "$2"; "$1"] /\
    Manifest.matcher r4 = "[^]*" +:+ lf +:+ "([^" +:+ lf +:+ "]*)$" /\
    (exists re groups,
        parse (Manifest.matcher r4) = Some re /\
        exec re msg = Some groups /\
        groups !! 1 = Some (last_line msg)) /\
    apply_rule r4 msg = Some (last_line msg).
Proof.
  intros Hin. split; [reflexivity |].
  destruct (split_at_last_lf msg Hin) as [pre [l [-> Hl]]].
  pose proof (last_line_pattern_matches pre l Hl) as Hm.
  rewrite (last_line_after_lf pre l Hl).
  assert (Hexec : exec last_line_pattern (pre ++ LF :: l)
                  = Some (<[0 := consumed (pre ++ LF :: l) []]>
                            (<[1 := l]> ∅))).
  { destruct pre; cbn [exec app]; cbn [app] in Hm; rewrite Hm; reflexivity. }
  do 4 eexists. split; [reflexivity |].
  split; [reflexivity |].
  cbn [Manifest.matcher Manifest.message].
  split; [reflexivity |].
  split.
  - exists last_line_pattern. eexists.
    split; [exact last_line_pattern_parsed |].
    split; [exact Hexec |].
    rewrite lookup_insert_ne by discriminate. apply lookup_insert_eq.
  - unfold apply_rule. cbn [Manifest.matcher Manifest.message].
    rewrite last_line_pattern_parsed, Hexec.
    cbn [list_ascii_of_string substitute].
    change (Ascii.eqb "$" "$") with true. cbn iota.
    change (digit_of "1") with (Some 1). cbn iota.
    rewrite lookup_insert_ne by discriminate. rewrite lookup_insert_eq.
    rewrite app_nil_r. reflexivity.
Qed.

(** The theorem at the three-line message [ab], [cd], [e]. *)
Lemma errorlens_last_line_rule_witness :
  In LF (code_units ("ab" +:+ lf +:+ "cd" +:+ lf +:+ "e")) /\
  last_line (code_units ("ab" +:+ lf +:+ "cd" +:+ lf +:+ "e"))
    = code_units "e" /\
  exists r1 r2 r3 r4 : Manifest.replace_rule,
    Manifest.errorLens_replace Manifest.arkdark = Some [r1; r2; r3; r4] /\
    apply_rule r4 (code_units ("ab" +:+ lf +:+ "cd" +:+ lf +:+ "e"))
      = Some (last_line (code_units ("ab" +:+ lf +:+ "cd" +:+ lf +:+ "e"))).
Proof.
  assert (Hin : In LF (code_units ("ab" +:+ lf +:+ "cd" +:+ lf +:+ "e")))
    by (vm_compute; tauto).
  split; [exact Hin |]. split; [reflexivity |].
  destruct (errorlens_last_line_rule _ Hin)
    as [_ [r1 [r2 [r3 [r4 [Hrules [_ [_ [_ Happly]]]]]]]]].
  exists r1, r2, r3, r4. split; [exact Hrules | exact Happly].
Defined.

End ErrorLensFacts.

(** ** Worked examples *)

Section Examples.

Import Workflow Manifest ErrorLens Layout.

Example tag_push_does_not_trigger :
  triggered_by publish {| event_name := "push"; event_ref := Tag "v2.1.0" |}
  = false.
Proof. reflexivity. Qed.

Example other_branch_does_not_trigger :
  triggered_by publish {| event_name := "push"; event_ref := Branch "docs" |}
  = false.
Proof. reflexivity. Qed.

Example pull_request_does_not_trigger :
  triggered_by publish
    {| event_name := "pull_request"; event_ref := Branch "main" |}
  = false.
Proof. reflexivity. Qed.

Example deploy_cannot_start_first :
  sched_run publish initial [Start "deploy"] = None.
Proof. reflexivity. Qed.

Example deploy_waits_for_finish :
  sched_run publish initial [Start "update-gh-pages"; Start "deploy"] = None.
Proof. reflexivity. Qed.

Example release_can_start_first :
  sched_run publish initial [Start "release"]
  = Some {| started := ["release"]; completed := [] |}.
Proof. reflexivity. Qed.

Example failed_packaging_publishes_nothing :
  run_script (scripts arkdark) (fun c => negb (mem "package" c)) 2
    "publishExtension"
  = Some ([["vsce"; "package"; "--out"; "arkdark.vsix"]], false).
Proof. vm_compute. reflexivity. Qed.

Example nested_script_needs_fuel :
  run_script (scripts arkdark) (fun _ => true) 1 "publishExtension" = None.
Proof. vm_compute. reflexivity. Qed.

Example first_rule_takes_error_type :
  option_map
    (fun rules =>
       map (fun r => apply_rule r (code_units "x 'ErrorType<must be a>' y"))
           (firstn 1 rules))
    (errorLens_replace arkdark)
  = Some [Some (code_units "must be a")].
Proof. vm_compute. reflexivity. Qed.

Example last_line_rule_needs_line_feed :
  exec last_line_pattern (code_units "one line") = None.
Proof. vm_compute. reflexivity. Qed.

Example last_line_rule_on_trailing_line_feed :
  option_map (fun groups => groups !! 1)
             (exec last_line_pattern (code_units ("ab" +:+ lf)))
  = Some (Some []).
Proof. vm_compute. reflexivity. Qed.

Example layout_keeps_links :
  let base : gmap string value :=
    {[ "links" := VStr "docs";
       "nav" := VObj {[ "title" := VStr "ArkType";
                        "children" := VStr "old" ]} ]} in
  layout base (VStr "page")
  = VElem "HomeLayout"
      {[ "links" := VStr "docs";
         "nav" := VObj {[ "title" := VStr "ArkType";
                          "children" := float_your_boat_header ]};
         "children" := VStr "page" ]}.
Proof. vm_compute. reflexivity. Qed.

End Examples.

(** * Further properties *)

(** ** The home layout: overrides and missing [nav] *)

Section LayoutOverrides.

Import Layout.

(** X1: the element does not depend on a [children] field of [baseOptions]
    nor on a [children] field of [baseOptions.nav]: both are written over. *)
Theorem layout_overrides_win
    (baseOptions nav : gmap string value) (children v w : value) :
  layout (<[ "children" := v ]> baseOptions) children
    = layout baseOptions children /\
  layout (<[ "nav" := VObj (<[ "children" := w ]> nav) ]> baseOptions) children
    = layout (<[ "nav" := VObj nav ]> baseOptions) children.
Proof.
  unfold layout, nav_prop, get. split.
  - rewrite lookup_insert_ne by discriminate.
    rewrite (insert_insert_ne _ "nav" "children") by discriminate.
    rewrite insert_insert_eq. reflexivity.
  - rewrite !lookup_insert_eq. cbn [default from_option id spread].
    rewrite !insert_insert_eq. reflexivity.
Qed.

(** X2: when [baseOptions] has no [nav], or has it as [undefined] or
    [null], the [nav] prop is the object whose only field is [children],
    the [FloatYourBoat] element of kind [header]. *)
Theorem layout_without_nav (baseOptions : gmap string value)
    (children : value) :
  baseOptions !! "nav" = None \/
  baseOptions !! "nav" = Some VUndefined \/
  baseOptions !! "nav" = Some VNull ->
  exists props : gmap string value,
    layout baseOptions children = VElem "HomeLayout" props /\
    props !! "nav"
      = Some (VObj {[ "children" := float_your_boat_header ]}).
Proof.
  intros Hnav. eexists. split; [reflexivity |].
  rewrite lookup_insert_ne by discriminate. rewrite lookup_insert_eq.
  unfold nav_prop, get.
  destruct Hnav as [-> | [-> | ->]]; cbn [default from_option id spread];
    rewrite insert_empty; reflexivity.
Qed.

(** The theorem at options that hold only [links]. *)
Lemma layout_without_nav_witness :
  ({[ "links" := VStr "docs" ]} : gmap string value) !! "nav" = None /\
  exists props : gmap string value,
    layout {[ "links" := VStr "docs" ]} (VStr "page")
      = VElem "HomeLayout" props /\
    props !! "nav"
      = Some (VObj {[ "children" := float_your_boat_header ]}).
Proof.
  split; [reflexivity |].
  apply (layout_without_nav {[ "links" := VStr "docs" ]} (VStr "page")).
  left. reflexivity.
Defined.

End LayoutOverrides.

(** ** The publish workflow: secrets per step *)

Section PipelineFacts.

Import Workflow Pipeline.

(** X4: a secret is only ever handed to a [run:] step, never to a step
    that [uses:] an action; the docs secret is read in [update-gh-pages]
    only and the two publish tokens in [release] only. *)
Theorem secrets_only_to_run_steps (j : job) (s : step) (n : string) :
  In j (jobs publish) ->
  In s (steps j) ->
  In n (step_secrets s) ->
  uses s = None /\
  is_Some (run s) /\
  ((job_id j = "update-gh-pages" /\ n = "ORAMA_PRIVATE_API_KEY") \/
   (job_id j = "release" /\ (n = "GITHUB_TOKEN" \/ n = "NPM_TOKEN"))).
Proof.
  intros Hj Hs Hn. cbn in Hj.
  destruct Hj as [<- | [<- | [<- | []]]]; cbn in Hs;
    repeat (destruct Hs as [<- | Hs]; [cbn in Hn | ]);
    try destruct Hs; try destruct Hn as [<- | Hn];
    try destruct Hn as [<- | Hn]; try destruct Hn as [<- | Hn];
    try destruct Hn;
    (split; [reflexivity |]; split; [eexists; reflexivity |]; auto).
Qed.

(** The theorem at the Build docs step and its one secret. *)
Lemma secrets_only_to_run_steps_witness :
  uses build_docs = None /\
  is_Some (run build_docs) /\
  ((job_id update_gh_pages = "update-gh-pages" /\
    "ORAMA_PRIVATE_API_KEY" = "ORAMA_PRIVATE_API_KEY") \/
   (job_id update_gh_pages = "release" /\
    ("ORAMA_PRIVATE_API_KEY" = "GITHUB_TOKEN" \/
     "ORAMA_PRIVATE_API_KEY" = "NPM_TOKEN"))).
Proof.
  apply (secrets_only_to_run_steps update_gh_pages build_docs
           "ORAMA_PRIVATE_API_KEY").
  - cbn. left. reflexivity.
  - cbn. right. right. left. reflexivity.
  - cbn. left. reflexivity.
Defined.

End PipelineFacts.

(** ** The guide: examples follow the config-first rule *)

Section GuideExampleFacts.

Import Docs GuideExamples.

(** X5: the guide has eight code blocks titled [app.ts] and eight titled
    [config.ts]. Every [app.ts] block imports the config file before it
    imports from the main entry point, and every [config.ts] block imports
    [configure] from the config entry point and nothing from the main one,
    as the guide's own callout asks. *)
Theorem guide_examples_import_config_first :
  length (blocks_titled app_info guide) = 8 /\
  length (blocks_titled config_info guide) = 8 /\
  Forall (fun b => config_before_arktype b = true)
         (blocks_titled app_info guide) /\
  Forall (fun b => config_entry_only b = true)
         (blocks_titled config_info guide).
Proof.
  split; [vm_compute; reflexivity |].
  split; [vm_compute; reflexivity |].
  split; apply List.Forall_forall, forallb_forall; vm_compute; reflexivity.
Qed.

End GuideExampleFacts.

(** ** The rewrite rules on single-line and multi-line messages *)

Section RuleFacts.

Import ErrorLens Rules.

(** *** Literal runs and one-line stars *)

Lemma matches_literal (w : list N) (rest : regex) :
  forall (inp : list N) (c : gmap nat (list N)) (k : cont),
    matches (literal w rest) inp c k =
    match strip w inp with
    | Some t => matches rest t c k
    | None => None
    end.
Proof.
  induction w as [| x w IH]; intros inp c k; cbn [literal strip].
  - reflexivity.
  - destruct inp as [| y inp]; cbn [matches one]; [reflexivity |].
    destruct (N.eqb x y); [apply IH | reflexivity].
Qed.

Lemma strip_app (w t : list N) : strip w (w ++ t) = Some t.
Proof.
  induction w as [| x w IH]; cbn [strip app]; [reflexivity |].
  rewrite N.eqb_refl. exact IH.
Qed.

Lemma strip_Some (w : list N) :
  forall inp t, strip w inp = Some t -> inp = w ++ t.
Proof.
  induction w as [| x w IH]; intros inp t H; cbn [strip] in H.
  - injection H as ->. reflexivity.
  - destruct inp as [| y inp]; [discriminate |].
    destruct (N.eqb_spec x y) as [-> | _]; [| discriminate].
    cbn [app]. f_equal. apply IH, H.
Qed.

Lemma occurs_false (w : list N) :
  forall inp, occurs w inp = false ->
              forall a s, inp = a ++ s -> strip w s = None.
Proof.
  induction inp as [| y inp IH]; intros Hocc a s Heq; cbn [occurs] in Hocc.
  - destruct a; [| discriminate]. cbn [app] in Heq. subst s.
    destruct (strip w []); [discriminate | reflexivity].
  - destruct (strip w (y :: inp)) eqn:Hhere; [discriminate |].
    destruct a as [| a0 a]; cbn [app] in Heq.
    + subst s. exact Hhere.
    + injection Heq as _ Heq. exact (IH Hocc a s Heq).
Qed.

Lemma consumed_app (a b : list N) : consumed (a ++ b) b = a.
Proof.
  unfold consumed. rewrite length_app.
  replace (length a + length b - length b) with (length a) by lia.
  induction a as [| x a IH]; cbn [length take app].
  - destruct b; reflexivity.
  - f_equal. exact IH.
Qed.

Lemma single_line_dot (l : list N) :
  single_line l ->
  Forall (fun x => in_class true line_terminators x = true) l.
Proof.
  intros Hl. eapply List.Forall_impl; [| exact Hl].
  intros x Hx. unfold in_class.
  destruct (existsb (N.eqb x) line_terminators) eqn:He; [| reflexivity].
  exfalso. apply Hx. apply existsb_exists in He.
  destruct He as [y [Hy Heq]]. apply N.eqb_eq in Heq. subst y. exact Hy.
Qed.

(** A star over one line reads to the end of a single-line input. *)
Lemma dot_star_to_end (post : list N) (c : gmap nat (list N)) (k : cont)
    (r : result) :
  single_line post ->
  k [] c = Some r ->
  star_loop (one (in_class true line_terminators)) (length post) post c k
  = Some r.
Proof.
  intros Hpost Hk.
  pose proof (star_loop_one_greedy (in_class true line_terminators)
                c k [] r) as Hstar.
  rewrite <- (app_nil_r post) at 1 2. apply Hstar.
  - intros a s Heq Ha. destruct a; [congruence | discriminate].
  - exact Hk.
  - apply single_line_dot, Hpost.
  - reflexivity.
Qed.

Lemma exec_first (r : regex) (inp rest : list N) (c : gmap nat (list N)) :
  matches r inp ∅ accept = Some (rest, c) ->
  exec r inp = Some (<[0 := consumed inp rest]> c).
Proof. intros H. destruct inp; cbn [exec]; rewrite H; reflexivity. Qed.

Lemma exec_none (r : regex) :
  forall inp,
    (forall a s, inp = a ++ s -> matches r s ∅ accept = None) ->
    exec r inp = None.
Proof.
  induction inp as [| x inp IH]; intros H; cbn [exec].
  - rewrite (H [] []); reflexivity.
  - rewrite (H [] (x :: inp)) by reflexivity.
    apply IH. intros a s ->. apply (H (x :: a) s). reflexivity.
Qed.

Lemma substitute_group_one (groups : gmap nat (list N)) (g : list N) :
  groups !! 1 = Some g ->
  substitute (list_ascii_of_string "$1") groups = g.
Proof.
  intros H. cbn [list_ascii_of_string substitute].
  change (Ascii.eqb "$" "$") with true. cbn iota.
  change (digit_of "1") with (Some 1). cbn iota.
  rewrite H. apply app_nil_r.
Qed.

(** *** The last-line rule on single-line messages *)

Lemma fourth_rule_shape (r : Manifest.replace_rule) :
  nth_rule 3 = Some r ->
  r = {| Manifest.matcher := "[^]*" +:+ lf +:+ "([^" +:+ lf +:+ "]*)$";
         Manifest.message := "$1" |}.
Proof. intros H. vm_compute in H. injection H as <-. reflexivity. Qed.

Lemma last_line_pattern_fails (inp : list N) :
  ~ In LF inp -> matches last_line_pattern inp ∅ accept = None.
Proof.
  intros Hno. unfold last_line_pattern. cbn [matches].
  apply star_loop_one_fails. intros pre s ->.
  destruct s as [| y s]; [reflexivity |]. cbn [one].
  destruct (N.eqb_spec LF y) as [<- | _]; [| reflexivity].
  exfalso. apply Hno. apply in_or_app. right. left. reflexivity.
Qed.

Lemma apply_fourth_rule (r : Manifest.replace_rule) (msg : list N) :
  nth_rule 3 = Some r ->
  apply_rule r msg =
  if existsb (N.eqb LF) msg then Some (last_line msg) else None.
Proof.
  intros Hr. rewrite (fourth_rule_shape r Hr). unfold apply_rule.
  cbn [Manifest.matcher Manifest.message].
  rewrite last_line_pattern_parsed.
  destruct (existsb (N.eqb LF) msg) eqn:He.
  - assert (Hin : In LF msg).
    { apply existsb_exists in He. destruct He as [y [Hy Heq]].
      apply N.eqb_eq in Heq. subst y. exact Hy. }
    destruct (split_at_last_lf msg Hin) as [pre [l [-> Hl]]].
    rewrite (exec_first _ _ _ _ (last_line_pattern_matches pre l Hl)).
    rewrite (last_line_after_lf pre l Hl). f_equal.
    apply substitute_group_one.
    rewrite lookup_insert_ne by discriminate. apply lookup_insert_eq.
  - rewrite exec_none; [reflexivity |].
    intros a s ->. apply last_line_pattern_fails. intros Hin.
    assert (Ht : existsb (N.eqb LF) (a ++ s) = true).
    { apply existsb_exists. exists LF. split.
      - apply in_or_app. right. exact Hin.
      - apply N.eqb_refl. }
    congruence.
Qed.

Lemma last_line_no_lf (msg : list N) : In LF msg -> ~ In LF (last_line msg).
Proof.
  intros Hin. destruct (split_at_last_lf msg Hin) as [pre [l [-> Hl]]].
  rewrite (last_line_after_lf pre l Hl).
  rewrite List.Forall_forall in Hl. intros H. exact (Hl LF H eq_refl).
Qed.

(** X6: the fourth rule leaves every message without a line feed alone:
    its matcher matches a message exactly when the message holds a line
    feed. *)
Theorem last_line_rule_matches_iff (r : Manifest.replace_rule)
    (msg : list N) :
  nth_rule 3 = Some r ->
  (apply_rule r msg = None <-> ~ In LF msg).
Proof.
  intros Hr. rewrite (apply_fourth_rule r msg Hr).
  destruct (existsb (N.eqb LF) msg) eqn:He.
  - split; [discriminate |]. intros Hno. exfalso. apply Hno.
    apply existsb_exists in He. destruct He as [y [Hy Heq]].
    apply N.eqb_eq in Heq. subst y. exact Hy.
  - split; [| reflexivity]. intros _ Hin.
    assert (Ht : existsb (N.eqb LF) msg = true).
    { apply existsb_exists. exists LF. split; [exact Hin | apply N.eqb_refl]. }
    congruence.
Qed.

(** The theorem at the fourth rule and a one-line message. *)
Lemma last_line_rule_matches_iff_witness :
  exists r : Manifest.replace_rule,
    nth_rule 3 = Some r /\
    (apply_rule r (code_units "must be a string") = None <->
     ~ In LF (code_units "must be a string")).
Proof.
  eexists. split; [reflexivity |].
  apply (last_line_rule_matches_iff _ (code_units "must be a string")).
  reflexivity.
Defined.

(** X7: what the fourth rule produces holds no line feed, so the rule does
    not match its own output. *)
Theorem last_line_rule_output_single_line (r : Manifest.replace_rule)
    (msg out : list N) :
  nth_rule 3 = Some r ->
  apply_rule r msg = Some out ->
  ~ In LF out /\ apply_rule r out = None.
Proof.
  intros Hr Happly. rewrite (apply_fourth_rule r msg Hr) in Happly.
  destruct (existsb (N.eqb LF) msg) eqn:He; [| discriminate].
  injection Happly as <-.
  assert (Hin : In LF msg).
  { apply existsb_exists in He. destruct He as [y [Hy Heq]].
    apply N.eqb_eq in Heq. subst y. exact Hy. }
  pose proof (last_line_no_lf msg Hin) as Hno.
  split; [exact Hno |].
  rewrite (apply_fourth_rule r _ Hr).
  destruct (existsb (N.eqb LF) (last_line msg)) eqn:He'; [| reflexivity].
  exfalso. apply Hno. apply existsb_exists in He'.
  destruct He' as [y [Hy Heq]]. apply N.eqb_eq in Heq. subst y. exact Hy.
Qed.

(** The theorem at the fourth rule and a two-line message. *)
Lemma last_line_rule_output_single_line_witness :
  exists r : Manifest.replace_rule,
    nth_rule 3 = Some r /\
    apply_rule r (code_units ("Type error" +:+ lf +:+ "must be a string"))
      = Some (code_units "must be a string") /\
    ~ In LF (code_units "must be a string") /\
    apply_rule r (code_units "must be a string") = None.
Proof.
  eexists. split; [reflexivity |].
  split; [vm_compute; reflexivity |].
  apply (last_line_rule_output_single_line _
           (code_units ("Type error" +:+ lf +:+ "must be a string"))).
  - reflexivity.
  - vm_compute. reflexivity.
Defined.

(** *** The ErrorType rule *)

Lemma first_rule_shape (r : Manifest.replace_rule) :
  nth_rule 0 = Some r ->
  r = {| Manifest.matcher := ".*'ErrorType<(.*)>'.*$";
         Manifest.message := "$1" |}.
Proof. intros H. vm_compute in H. injection H as <-. reflexivity. Qed.

Lemma error_type_pattern_parsed :
  parse ".*'ErrorType<(.*)>'.*$" = Some error_type_pattern.
Proof. vm_compute. reflexivity. Qed.

Lemma apostrophes_none (l : list N) :
  ~ In APOSTROPHE l <-> apostrophes l = 0.
Proof. apply count_occ_not_In. Qed.

Lemma apostrophes_app (a b : list N) :
  apostrophes (a ++ b) = apostrophes a + apostrophes b.
Proof. apply count_occ_app. Qed.

Lemma strip_close_none (s : list N) :
  ~ In APOSTROPHE s -> strip error_type_close s = None.
Proof.
  intros Hno. change error_type_close with [62%N; APOSTROPHE].
  destruct s as [| y [| z s]]; cbn [strip]; try reflexivity.
  - destruct (N.eqb 62 y); reflexivity.
  - destruct (N.eqb 62 y); [| reflexivity].
    destruct (N.eqb_spec APOSTROPHE z) as [<- | _]; [| reflexivity].
    exfalso. apply Hno. right. left. reflexivity.
Qed.

(** After the opening run, the rest of the first matcher needs an
    apostrophe to close. *)
Lemma after_open_fails (t : list N) (c : gmap nat (list N)) (k : cont)
    (rest : regex) :
  ~ In APOSTROPHE t ->
  matches (Seq (Group 1 (Seq (Star Dot) Empty))
             (literal error_type_close rest)) t c k = None.
Proof.
  intros Hno. cbn [matches].
  apply star_loop_one_fails. intros pre s ->.
  rewrite matches_literal, strip_close_none; [reflexivity |].
  intros Hin. apply Hno. apply in_or_app. right. exact Hin.
Qed.

Lemma error_type_pattern_matches (pre body post : list N) :
  single_line pre -> single_line body -> single_line post ->
  ~ In APOSTROPHE body -> ~ In APOSTROPHE post ->
  matches error_type_pattern
    (pre ++ error_type_open ++ body ++ error_type_close ++ post) ∅ accept
  = Some ([], <[1 := body]> ∅).
Proof.
  intros Hpre Hbody Hpost Hab Hap.
  unfold error_type_pattern. cbn [matches].
  apply (star_loop_one_greedy (in_class true line_terminators)).
  - (* no later start of the opening run can be completed *)
    intros a s Heq Ha. rewrite matches_literal.
    destruct (strip error_type_open s) as [t |] eqn:Hstrip; [| reflexivity].
    apply strip_Some in Hstrip. subst s.
    apply after_open_fails. apply apostrophes_none.
    destruct a as [| a0 a]; [congruence |].
    assert (Hopen : error_type_open = APOSTROPHE :: code_units "ErrorType<")
      by reflexivity.
    assert (Hw : apostrophes (code_units "ErrorType<") = 0) by reflexivity.
    assert (Hclose : apostrophes error_type_close = 1) by reflexivity.
    rewrite Hopen in Heq. clear Hopen.
    remember (code_units "ErrorType<") as w eqn:Ew. clear Ew.
    remember error_type_close as cl eqn:Ecl. clear Ecl.
    rewrite <- !app_comm_cons in Heq. injection Heq as _ Heq.
    apply (f_equal apostrophes) in Heq.
    rewrite !apostrophes_app in Heq.
    change (apostrophes (APOSTROPHE :: w ++ t))
      with (S (apostrophes (w ++ t))) in Heq.
    rewrite apostrophes_app in Heq.
    apply apostrophes_none in Hab. apply apostrophes_none in Hap.
    lia.
  - (* at the opening run: group 1 reads up to the closing run *)
    rewrite matches_literal, strip_app. cbn [matches].
    apply (star_loop_one_greedy (in_class true line_terminators)).
    + intros a s Heq Ha. cbn beta. rewrite matches_literal.
      destruct a as [| a0 [| a1 a]]; [congruence | |].
      * change (62%N :: APOSTROPHE :: post = a0 :: s) in Heq.
        injection Heq as _ Heq. subst s.
        replace (strip error_type_close (APOSTROPHE :: post))
          with (@None (list N)) by reflexivity.
        reflexivity.
      * change (62%N :: APOSTROPHE :: post = a0 :: a1 :: a ++ s) in Heq.
        injection Heq as _ _ Heq. subst post.
        rewrite strip_close_none; [reflexivity |].
        intros Hin. apply Hap. apply in_or_app. right. exact Hin.
    + cbn beta. rewrite matches_literal, strip_app.
      rewrite consumed_app. cbn [matches].
      apply dot_star_to_end; [exact Hpost | reflexivity].
    + apply single_line_dot, Hbody.
    + reflexivity.
  - apply single_line_dot, Hpre.
  - reflexivity.
Qed.

Lemma single_line_check (l : list N) :
  forallb (fun x => negb (existsb (N.eqb x) line_terminators)) l = true ->
  single_line l.
Proof.
  intros H. apply List.Forall_forall. intros x Hx Hin.
  rewrite forallb_forall in H. specialize (H x Hx).
  apply negb_true_iff in H.
  assert (Ht : existsb (N.eqb x) line_terminators = true).
  { apply existsb_exists. exists x. split; [exact Hin | apply N.eqb_refl]. }
  congruence.
Qed.

Lemma no_apostrophe_check (l : list N) :
  existsb (N.eqb APOSTROPHE) l = false -> ~ In APOSTROPHE l.
Proof.
  intros H Hin.
  assert (Ht : existsb (N.eqb APOSTROPHE) l = true).
  { apply existsb_exists. exists APOSTROPHE.
    split; [exact Hin | apply N.eqb_refl]. }
  congruence.
Qed.

(** X8: on a one-line message of the form
    [pre 'ErrorType<body>' post], where neither [body] nor [post] holds an
    apostrophe, the first rule rewrites the message to [body]. *)
Theorem error_type_rule_extracts (r : Manifest.replace_rule)
    (pre body post : list N) :
  nth_rule 0 = Some r ->
  single_line pre -> single_line body -> single_line post ->
  ~ In APOSTROPHE body -> ~ In APOSTROPHE post ->
  apply_rule r (pre ++ error_type_open ++ body ++ error_type_close ++ post)
  = Some body.
Proof.
  intros Hr Hpre Hbody Hpost Hab Hap.
  rewrite (first_rule_shape r Hr). unfold apply_rule.
  cbn [Manifest.matcher Manifest.message].
  rewrite error_type_pattern_parsed.
  rewrite (exec_first _ _ _ _
             (error_type_pattern_matches pre body post
                Hpre Hbody Hpost Hab Hap)).
  f_equal. apply substitute_group_one.
  rewrite lookup_insert_ne by discriminate. apply lookup_insert_eq.
Qed.

(** The theorem at a TypeScript assignability message. *)
Lemma error_type_rule_extracts_witness :
  exists r : Manifest.replace_rule,
    nth_rule 0 = Some r /\
    apply_rule r
      (code_units "Type 'string' is not assignable to type "
       ++ error_type_open ++ code_units "must be a number"
       ++ error_type_close ++ code_units ".")
    = Some (code_units "must be a number").
Proof.
  eexists. split; [reflexivity |].
  apply (error_type_rule_extracts _
           (code_units "Type 'string' is not assignable to type ")
           (code_units "must be a number") (code_units ".")).
  - reflexivity.
  - apply single_line_check. reflexivity.
  - apply single_line_check. reflexivity.
  - apply single_line_check. reflexivity.
  - apply no_apostrophe_check. reflexivity.
  - apply no_apostrophe_check. reflexivity.
Defined.

(** X9: the first rule leaves alone every message in which the run
    ['ErrorType<] does not occur. *)
Theorem error_type_rule_needs_marker (r : Manifest.replace_rule)
    (msg : list N) :
  nth_rule 0 = Some r ->
  occurs error_type_open msg = false ->
  apply_rule r msg = None.
Proof.
  intros Hr Hocc. rewrite (first_rule_shape r Hr). unfold apply_rule.
  cbn [Manifest.matcher Manifest.message].
  rewrite error_type_pattern_parsed.
  rewrite exec_none; [reflexivity |].
  intros a s ->. unfold error_type_pattern. cbn [matches].
  apply star_loop_one_fails. intros pre t ->.
  rewrite matches_literal.
  rewrite (occurs_false _ _ Hocc (a ++ pre) t); [reflexivity |].
  apply app_assoc.
Qed.

(** The theorem at a message without the run. *)
Lemma error_type_rule_needs_marker_witness :
  exists r : Manifest.replace_rule,
    nth_rule 0 = Some r /\
    occurs error_type_open
      (code_units "Type 'string' is not assignable to type 'number'.")
      = false /\
    apply_rule r
      (code_units "Type 'string' is not assignable to type 'number'.")
      = None.
Proof.
  eexists. split; [reflexivity |]. split; [reflexivity |].
  apply (error_type_rule_needs_marker _
           (code_units "Type 'string' is not assignable to type 'number'."));
    reflexivity.
Defined.

(** *** What a match of the first rule implies *)

(** A successful iteration read a run of accepted code units and then the
    rest of the pattern succeeded. *)
Lemma star_loop_one_inv (p : N -> bool) (c : gmap nat (list N)) (k : cont) :
  forall (n : nat) (inp : list N) (r : result),
    star_loop (one p) n inp c k = Some r ->
    exists a s, inp = a ++ s /\
                Forall (fun x => p x = true) a /\
                k s c = Some r.
Proof.
  induction n as [| n IH]; intros inp r H.
  - exists [], inp. split; [reflexivity |]. split; [constructor | exact H].
  - destruct inp as [| x rest].
    + rewrite star_loop_one_nil in H. exists [], [].
      split; [reflexivity |]. split; [constructor | exact H].
    + rewrite star_loop_one_cons in H.
      destruct (p x) eqn:Hx.
      * destruct (star_loop (one p) n rest c k) as [r' |] eqn:Hrest.
        -- injection H as ->.
           destruct (IH rest r Hrest) as [a [s [-> [Ha Hk]]]].
           exists (x :: a), s. split; [reflexivity |].
           split; [constructor; assumption | exact Hk].
        -- exists [], (x :: rest). split; [reflexivity |].
           split; [constructor | exact H].
      * exists [], (x :: rest). split; [reflexivity |].
        split; [constructor | exact H].
Qed.

Lemma dot_single_line (l : list N) :
  Forall (fun x => in_class true line_terminators x = true) l ->
  single_line l.
Proof.
  intros Hl. eapply List.Forall_impl; [| exact Hl].
  intros x Hx Hin. unfold in_class in Hx.
  assert (Ht : existsb (N.eqb x) line_terminators = true).
  { apply existsb_exists. exists x. split; [exact Hin | apply N.eqb_refl]. }
  rewrite Ht in Hx. discriminate Hx.
Qed.

Lemma exec_inv (r : regex) :
  forall (inp : list N) (groups : gmap nat (list N)),
    exec r inp = Some groups ->
    exists a s rest c,
      inp = a ++ s /\
      matches r s ∅ accept = Some (rest, c) /\
      groups = <[0 := consumed s rest]> c.
Proof.
  induction inp as [| x inp IH]; intros groups H; cbn [exec] in H.
  - destruct (matches r [] ∅ accept) as [[rest c] |] eqn:Hm; [| discriminate].
    injection H as <-. exists [], [], rest, c. auto.
  - destruct (matches r (x :: inp) ∅ accept) as [[rest c] |] eqn:Hm.
    + injection H as <-. exists [], (x :: inp), rest, c. auto.
    + destruct (IH groups H) as [a [s [rest [c [-> [Hs Hg]]]]]].
      exists (x :: a), s, rest, c. auto.
Qed.

Lemma error_type_pattern_inv (s rest : list N) (c : gmap nat (list N)) :
  matches error_type_pattern s ∅ accept = Some (rest, c) ->
  exists pre body post,
    s = pre ++ error_type_open ++ body ++ error_type_close ++ post /\
    single_line body /\ single_line post /\
    c = <[1 := body]> ∅.
Proof.
  unfold error_type_pattern. cbn [matches]. intros H.
  apply star_loop_one_inv in H. destruct H as [pre [s1 [-> [_ H]]]].
  rewrite matches_literal in H.
  destruct (strip error_type_open s1) as [t1 |] eqn:Hopen; [| discriminate].
  apply strip_Some in Hopen. subst s1.
  cbn [matches] in H.
  apply star_loop_one_inv in H. destruct H as [body [s2 [-> [Hbody H]]]].
  cbn beta in H. rewrite matches_literal in H.
  destruct (strip error_type_close s2) as [t2 |] eqn:Hclose; [| discriminate].
  apply strip_Some in Hclose. subst s2.
  rewrite consumed_app in H. cbn [matches] in H.
  apply star_loop_one_inv in H. destruct H as [post [s3 [-> [Hpost H]]]].
  destruct s3 as [| y s3]; [| discriminate].
  unfold accept in H. injection H as _ <-.
  exists pre, body, post. rewrite app_nil_r.
  split; [reflexivity |].
  split; [apply dot_single_line, Hbody |].
  split; [apply dot_single_line, Hpost | reflexivity].
Qed.

(** X10: whatever the first rule produces is text of the message itself:
    it stands in the message between the run ['ErrorType<] and the run
    [>'], on the last line, and nothing but one-line text follows the
    closing run. *)
Theorem error_type_rule_sound (r : Manifest.replace_rule)
    (msg out : list N) :
  nth_rule 0 = Some r ->
  apply_rule r msg = Some out ->
  exists pre post,
    msg = pre ++ error_type_open ++ out ++ error_type_close ++ post /\
    single_line out /\ single_line post.
Proof.
  intros Hr Happly. rewrite (first_rule_shape r Hr) in Happly.
  unfold apply_rule in Happly.
  cbn [Manifest.matcher Manifest.message] in Happly.
  rewrite error_type_pattern_parsed in Happly.
  destruct (exec error_type_pattern msg) as [groups |] eqn:Hexec;
    [| discriminate].
  destruct (exec_inv _ _ _ Hexec) as [a [s [rest [c [-> [Hm ->]]]]]].
  destruct (error_type_pattern_inv _ _ _ Hm)
    as [pre [body [post [-> [Hbody [Hpost ->]]]]]].
  rewrite (substitute_group_one _ body) in Happly.
  - injection Happly as <-.
    exists (a ++ pre), post. rewrite <- app_assoc. auto.
  - rewrite lookup_insert_ne by discriminate. apply lookup_insert_eq.
Qed.

(** The theorem at a two-line message whose last line carries the run. *)
Lemma error_type_rule_sound_witness :
  exists r : Manifest.replace_rule,
    nth_rule 0 = Some r /\
    apply_rule r
      (code_units ("Argument is wrong." +:+ lf
                   +:+ "Type is 'ErrorType<must be even>'."))
      = Some (code_units "must be even") /\
    exists pre post,
      code_units ("Argument is wrong." +:+ lf
                  +:+ "Type is 'ErrorType<must be even>'.")
        = pre ++ error_type_open ++ code_units "must be even"
              ++ error_type_close ++ post /\
      single_line (code_units "must be even") /\ single_line post.
Proof.
  eexists. split; [reflexivity |].
  split; [vm_compute; reflexivity |].
  eapply (error_type_rule_sound _
            (code_units ("Argument is wrong." +:+ lf
                         +:+ "Type is 'ErrorType<must be even>'."))).
  - reflexivity.
  - vm_compute. reflexivity.
Defined.

End RuleFacts.

(** ** The manifest scripts: every script, any outcome of the tools *)

Section ScriptFacts.

Import Manifest.

Lemma scripts_table :
  scripts arkdark =
    [("publishExtension",
        "pnpm packageExtension && pnpm publishVsce && pnpm publishOvsx");
     ("packageExtension", "vsce package --out arkdark.vsix");
     ("publishVsce", "vsce publish -i arkdark.vsix");
     ("publishOvsx", "ovsx publish -i arkdark.vsix")].
Proof. reflexivity. Qed.

Ltac run_script_cases succeeds :=
  match goal with
  | |- exists trace ok, ?run = _ /\ _ =>
      let v := eval vm_compute in run in
      let E := fresh "E" in
      assert (E : run = v) by (vm_compute; reflexivity);
      rewrite E; clear E
  end;
  repeat match goal with
         | |- context [succeeds ?c] =>
             let H := fresh "Hs" in destruct (succeeds c) eqn:H
         end;
  (eexists; eexists; (split; [reflexivity |]);
   (split;
    [ repeat (apply List.Forall_cons;
              [split;
               [first [left; reflexivity | right; reflexivity]
               |first [left; reflexivity | right; reflexivity]] |]);
      apply List.Forall_nil
    | cbn [forallb];
      repeat match goal with
             | H : succeeds _ = _ |- _ => rewrite H
             end;
      reflexivity ])).

(** X11: whichever script of the manifest is run and whichever tools
    fail, the run ends, every tool invoked is [vsce] or [ovsx] acting on
    [arkdark.vsix], and the script succeeds exactly when every tool it
    invoked succeeded. *)
Theorem scripts_only_touch_vsix (succeeds : command -> bool) (fuel : nat)
    (name body : string) :
  assoc name (scripts arkdark) = Some body ->
  exists (trace : list command) (ok : bool),
    run_line (scripts arkdark) succeeds (S (S fuel)) body = Some (trace, ok) /\
    Forall (fun c =>
              (flag_value "--out" c = Some "arkdark.vsix" \/
               flag_value "-i" c = Some "arkdark.vsix") /\
              (hd_error c = Some "vsce" \/ hd_error c = Some "ovsx"))
           trace /\
    ok = forallb succeeds trace.
Proof.
  intros H. rewrite scripts_table in H. unfold assoc in H.
  cbn [List.find fst snd] in H.
  destruct (String.eqb "publishExtension" name);
    [injection H as <-; run_script_cases succeeds |].
  destruct (String.eqb "packageExtension" name);
    [injection H as <-; run_script_cases succeeds |].
  destruct (String.eqb "publishVsce" name);
    [injection H as <-; run_script_cases succeeds |].
  destruct (String.eqb "publishOvsx" name);
    [injection H as <-; run_script_cases succeeds | discriminate].
Qed.

(** The theorem at [publishVsce]. *)
Lemma scripts_only_touch_vsix_witness :
  assoc "publishVsce" (scripts arkdark) = Some "vsce publish -i arkdark.vsix"
  /\
  exists (trace : list command) (ok : bool),
    run_line (scripts arkdark) (fun _ => true) 2
      "vsce publish -i arkdark.vsix" = Some (trace, ok) /\
    Forall (fun c =>
              (flag_value "--out" c = Some "arkdark.vsix" \/
               flag_value "-i" c = Some "arkdark.vsix") /\
              (hd_error c = Some "vsce" \/ hd_error c = Some "ovsx"))
           trace /\
    ok = forallb (fun _ => true) trace.
Proof.
  split; [reflexivity |].
  apply (scripts_only_touch_vsix (fun _ => true) 0 "publishVsce").
  reflexivity.
Defined.

End ScriptFacts.
